(** * Call session controller of the browser softphone

    Shallow embedding of
      - [src/context/TwilioClientContext.tsx] (the call session controller:
        event feed, device lifecycle, call state machine, media controls),
      - [src/services/userCallLogs.ts] (the call log bridge).

    JavaScript strings are modelled as [string]: a sequence of code units
    in the Latin-1 range.  Every character class used by the controller
    contains ASCII characters only, so code units above that range behave
    like any other character outside the class. *)

From Stdlib Require Import ZArith Ascii String.
From stdpp Require Import gmap strings list fin_maps pretty.

Open Scope string_scope.

(** ** JavaScript string helpers *)

Module JsString.

Definition code (c : ascii) : nat := nat_of_ascii c.

Definition between (lo hi : nat) (c : ascii) : bool :=
  (lo <=? code c)%nat && (code c <=? hi)%nat.

Definition is_digit (c : ascii) : bool := between 48 57 c.
Definition is_upper (c : ascii) : bool := between 65 90 c.
Definition is_lower (c : ascii) : bool := between 97 122 c.

(** [WhiteSpace] and [LineTerminator] code units of [String.prototype.trim]
    in this range: TAB, LF, VT, FF, CR, SP and NBSP. *)
Definition is_ws (c : ascii) : bool :=
  between 9 13 c || (code c =? 32)%nat || (code c =? 160)%nat.

(** [s.replace(/[^CLASS]/g, '')] keeps exactly the characters of the class. *)
Fixpoint keep_chars (keep : ascii -> bool) (s : string) : string :=
  match s with
  | EmptyString => EmptyString
  | String c r =>
      if keep c then String c (keep_chars keep r) else keep_chars keep r
  end.

(** [s.replace(/[^CLASS]/g, '_')]. *)
Fixpoint replace_chars (keep : ascii -> bool) (by_ : ascii) (s : string) : string :=
  match s with
  | EmptyString => EmptyString
  | String c r =>
      String (if keep c then c else by_) (replace_chars keep by_ r)
  end.

Fixpoint forall_chars (p : ascii -> bool) (s : string) : bool :=
  match s with
  | EmptyString => true
  | String c r => p c && forall_chars p r
  end.

Fixpoint trimStart (s : string) : string :=
  match s with
  | EmptyString => EmptyString
  | String c r => if is_ws c then trimStart r else s
  end.

Fixpoint trimEnd (s : string) : string :=
  match s with
  | EmptyString => EmptyString
  | String c r =>
      match trimEnd r with
      | EmptyString => if is_ws c then EmptyString else String c EmptyString
      | r' => String c r'
      end
  end.

Definition trim (s : string) : string := trimEnd (trimStart s).

(** Truthiness of a string: the empty string is falsy. *)
Definition truthy (s : string) : bool :=
  match s with EmptyString => false | _ => true end.

Definition startsWith (c : ascii) (s : string) : bool :=
  match s with
  | String c' _ => if decide (c = c') then true else false
  | EmptyString => false
  end.

Definition first_char (s : string) : option ascii :=
  match s with EmptyString => None | String c _ => Some c end.

Fixpoint last_char (s : string) : option ascii :=
  match s with
  | EmptyString => None
  | String c EmptyString => Some c
  | String _ r => last_char r
  end.

(** [a ?? b] on an optional value. *)
Definition nullish {A} (a : option A) (b : A) : A :=
  match a with Some x => x | None => b end.

End JsString.

Import JsString.

(** ** Event feed ([pushEvent], [resetEvents]) *)

Record EventEntry := mkEvent {
  id : string;       (* crypto.randomUUID() *)
  at_ : Z;           (* Date.now() *)
  message : string
}.

Definition MAX_EVENT_ENTRIES : nat := 100.

(** The updater passed to [setEvents] by [pushEvent]:
    [next = [entry, ...prev]; return next.slice(0, MAX_EVENT_ENTRIES)]. *)
Definition pushEntry (entry : EventEntry) (prev : list EventEntry) : list EventEntry :=
  let next := entry :: prev in
  take MAX_EVENT_ENTRIES next.

(** ** Call log bridge ([src/services/userCallLogs.ts]) *)

Module UserCallLogs.

(** Values of document fields.  [FDeleteField] and [FServerTimestamp] are
    the Firestore sentinels [deleteField()] and [serverTimestamp()];
    [FTimestamp] is a timestamp stored in a document; [FUndefined] is an
    own property whose value is [undefined]. *)
(** Document ids are opaque non-empty strings; they are modelled as
    naturals. *)
Inductive FieldValue :=
| FString (s : string)
| FNumber (z : Z)
| FDeleteField
| FServerTimestamp
| FTimestamp (t : Z)
| FUndefined.

Inductive Call :=
| AddDoc (userId : string) (fields : gmap string FieldValue)
| UpdateDoc (userId : string) (logId : nat) (payload : gmap string FieldValue).

Definition not_configured : string := "Firebase is not configured".

(** [createUserCallLog]: the defaults, then [...payload] on top of them. *)
Definition createUserCallLog (firebaseDb : bool) (userId : string)
    (payload : gmap string FieldValue) : string + Call :=
  if negb firebaseDb then inl not_configured
  else
    let defaults : gmap string FieldValue :=
      <["createdAt" := FServerTimestamp]>
      (<["startedAt" := FServerTimestamp]>
      (<["durationSeconds" := FNumber 0]>
      (<["status" := FString "connecting"]>
      (<["direction" := FString "outbound"]> ∅)))) in
    inr (AddDoc userId (payload ∪ defaults)).

(** [typeof updates.note === 'string' ? updates.note.trim() : ''] *)
Definition note_of (updates : gmap string FieldValue) : string :=
  match updates !! "note" with
  | Some (FString s) => trim s
  | _ => ""
  end.

Definition finalizeUserCallLog (firebaseDb : bool) (userId : string) (logId : nat)
    (updates : gmap string FieldValue) : string + Call :=
  if negb firebaseDb then inl not_configured
  else
    let note := note_of updates in
    let payload :=
      <["endedAt" := FServerTimestamp]>
      (<["note" := if (0 <? String.length note)%nat then FString note else FDeleteField]>
       updates) in
    inr (UpdateDoc userId logId payload).

(** What the store does with an [updateDoc] payload: a field carrying the
    delete sentinel is removed, one carrying the timestamp sentinel gets
    the server's time, any other field is overwritten; fields absent from
    the payload are kept. *)
Definition write_field (now : Z) (upd old : option FieldValue) : option FieldValue :=
  match upd with
  | Some FDeleteField => None
  | Some FServerTimestamp => Some (FTimestamp now)
  | Some v => Some v
  | None => old
  end.

Definition applyUpdate (now : Z) (payload doc : gmap string FieldValue)
    : gmap string FieldValue :=
  merge (write_field now) payload doc.

End UserCallLogs.

(** ** Data model of the controller ([TwilioClientContext.tsx]) *)

Inductive ConnectionState :=
| conn_idle | conn_initialising | conn_registered | conn_error | conn_disconnected.

Inductive CallState :=
| idle | connecting | ringing | incoming | active | held | completed | failed.

Inductive LogStatus := LogCompleted | LogFailed | LogCancelled.

Definition status_string (s : LogStatus) : string :=
  match s with
  | LogCompleted => "completed"
  | LogFailed => "failed"
  | LogCancelled => "cancelled"
  end.

#[global] Instance CallState_eq_dec : EqDecision CallState.
Proof. solve_decision. Defined.

Record User := mkUser { uid : string; email : option string }.

(** The answer of the token endpoint: [{ token, identity, expiresIn? }]. *)
Record TokenResponse := mkToken {
  token : string;
  tok_identity : option string;
  expiresIn : option Z
}.

(** An SDK connection object, as far as the controller looks at it:
    [parameters.From], [parameters.To], the optional methods [isMuted] and
    [isOnHold] ([None] when the object has no such method) and whether
    [hold] is a function. *)
Record Connection := mkConn {
  From : option string;
  To : option string;
  sdkMuted : option bool;
  sdkOnHold : option bool;
  hasHold : bool
}.

(** React state ([useState]) and refs ([useRef]) of the provider.  Devices,
    connections and call log documents are identified by naturals: object
    identity for the first two, the (non-empty) document id for the last. *)
Record State := mkState {
  connectionStatus : ConnectionState * string;
  callState : CallState;
  events : list EventEntry;
  isClientReady : bool;
  isMuted : bool;
  isOnHold : bool;
  lastError : option string;
  incomingNumber : option string;
  activeNumber : option string;
  identityRef : string;
  deviceRef : option nat;
  activeConnectionRef : option nat;
  incomingConnectionRef : option nat;
  tokenRefreshTimerRef : option Z;       (* delay of the pending timer, ms *)
  activeLogIdRef : option nat;
  activeCallStartedAtRef : option Z;
  callNoteRef : string
}.

Definition setConnectionStatus v (s : State) : State :=
  mkState v (callState s) (events s) (isClientReady s) (isMuted s) (isOnHold s)
    (lastError s) (incomingNumber s) (activeNumber s) (identityRef s) (deviceRef s)
    (activeConnectionRef s) (incomingConnectionRef s) (tokenRefreshTimerRef s)
    (activeLogIdRef s) (activeCallStartedAtRef s) (callNoteRef s).
Definition setCallState v (s : State) : State :=
  mkState (connectionStatus s) v (events s) (isClientReady s) (isMuted s) (isOnHold s)
    (lastError s) (incomingNumber s) (activeNumber s) (identityRef s) (deviceRef s)
    (activeConnectionRef s) (incomingConnectionRef s) (tokenRefreshTimerRef s)
    (activeLogIdRef s) (activeCallStartedAtRef s) (callNoteRef s).
Definition setEvents v (s : State) : State :=
  mkState (connectionStatus s) (callState s) v (isClientReady s) (isMuted s) (isOnHold s)
    (lastError s) (incomingNumber s) (activeNumber s) (identityRef s) (deviceRef s)
    (activeConnectionRef s) (incomingConnectionRef s) (tokenRefreshTimerRef s)
    (activeLogIdRef s) (activeCallStartedAtRef s) (callNoteRef s).
Definition setIsClientReady v (s : State) : State :=
  mkState (connectionStatus s) (callState s) (events s) v (isMuted s) (isOnHold s)
    (lastError s) (incomingNumber s) (activeNumber s) (identityRef s) (deviceRef s)
    (activeConnectionRef s) (incomingConnectionRef s) (tokenRefreshTimerRef s)
    (activeLogIdRef s) (activeCallStartedAtRef s) (callNoteRef s).
Definition setIsMuted v (s : State) : State :=
  mkState (connectionStatus s) (callState s) (events s) (isClientReady s) v (isOnHold s)
    (lastError s) (incomingNumber s) (activeNumber s) (identityRef s) (deviceRef s)
    (activeConnectionRef s) (incomingConnectionRef s) (tokenRefreshTimerRef s)
    (activeLogIdRef s) (activeCallStartedAtRef s) (callNoteRef s).
Definition setIsOnHold v (s : State) : State :=
  mkState (connectionStatus s) (callState s) (events s) (isClientReady s) (isMuted s) v
    (lastError s) (incomingNumber s) (activeNumber s) (identityRef s) (deviceRef s)
    (activeConnectionRef s) (incomingConnectionRef s) (tokenRefreshTimerRef s)
    (activeLogIdRef s) (activeCallStartedAtRef s) (callNoteRef s).
Definition setLastError v (s : State) : State :=
  mkState (connectionStatus s) (callState s) (events s) (isClientReady s) (isMuted s)
    (isOnHold s) v (incomingNumber s) (activeNumber s) (identityRef s) (deviceRef s)
    (activeConnectionRef s) (incomingConnectionRef s) (tokenRefreshTimerRef s)
    (activeLogIdRef s) (activeCallStartedAtRef s) (callNoteRef s).
Definition setIncomingNumber v (s : State) : State :=
  mkState (connectionStatus s) (callState s) (events s) (isClientReady s) (isMuted s)
    (isOnHold s) (lastError s) v (activeNumber s) (identityRef s) (deviceRef s)
    (activeConnectionRef s) (incomingConnectionRef s) (tokenRefreshTimerRef s)
    (activeLogIdRef s) (activeCallStartedAtRef s) (callNoteRef s).
Definition setActiveNumber v (s : State) : State :=
  mkState (connectionStatus s) (callState s) (events s) (isClientReady s) (isMuted s)
    (isOnHold s) (lastError s) (incomingNumber s) v (identityRef s) (deviceRef s)
    (activeConnectionRef s) (incomingConnectionRef s) (tokenRefreshTimerRef s)
    (activeLogIdRef s) (activeCallStartedAtRef s) (callNoteRef s).
Definition setIdentityRef v (s : State) : State :=
  mkState (connectionStatus s) (callState s) (events s) (isClientReady s) (isMuted s)
    (isOnHold s) (lastError s) (incomingNumber s) (activeNumber s) v (deviceRef s)
    (activeConnectionRef s) (incomingConnectionRef s) (tokenRefreshTimerRef s)
    (activeLogIdRef s) (activeCallStartedAtRef s) (callNoteRef s).
Definition setDeviceRef v (s : State) : State :=
  mkState (connectionStatus s) (callState s) (events s) (isClientReady s) (isMuted s)
    (isOnHold s) (lastError s) (incomingNumber s) (activeNumber s) (identityRef s) v
    (activeConnectionRef s) (incomingConnectionRef s) (tokenRefreshTimerRef s)
    (activeLogIdRef s) (activeCallStartedAtRef s) (callNoteRef s).
Definition setActiveConnectionRef v (s : State) : State :=
  mkState (connectionStatus s) (callState s) (events s) (isClientReady s) (isMuted s)
    (isOnHold s) (lastError s) (incomingNumber s) (activeNumber s) (identityRef s)
    (deviceRef s) v (incomingConnectionRef s) (tokenRefreshTimerRef s)
    (activeLogIdRef s) (activeCallStartedAtRef s) (callNoteRef s).
Definition setIncomingConnectionRef v (s : State) : State :=
  mkState (connectionStatus s) (callState s) (events s) (isClientReady s) (isMuted s)
    (isOnHold s) (lastError s) (incomingNumber s) (activeNumber s) (identityRef s)
    (deviceRef s) (activeConnectionRef s) v (tokenRefreshTimerRef s)
    (activeLogIdRef s) (activeCallStartedAtRef s) (callNoteRef s).
Definition setTokenRefreshTimerRef v (s : State) : State :=
  mkState (connectionStatus s) (callState s) (events s) (isClientReady s) (isMuted s)
    (isOnHold s) (lastError s) (incomingNumber s) (activeNumber s) (identityRef s)
    (deviceRef s) (activeConnectionRef s) (incomingConnectionRef s) v
    (activeLogIdRef s) (activeCallStartedAtRef s) (callNoteRef s).
Definition setActiveLogIdRef v (s : State) : State :=
  mkState (connectionStatus s) (callState s) (events s) (isClientReady s) (isMuted s)
    (isOnHold s) (lastError s) (incomingNumber s) (activeNumber s) (identityRef s)
    (deviceRef s) (activeConnectionRef s) (incomingConnectionRef s)
    (tokenRefreshTimerRef s) v (activeCallStartedAtRef s) (callNoteRef s).
Definition setActiveCallStartedAtRef v (s : State) : State :=
  mkState (connectionStatus s) (callState s) (events s) (isClientReady s) (isMuted s)
    (isOnHold s) (lastError s) (incomingNumber s) (activeNumber s) (identityRef s)
    (deviceRef s) (activeConnectionRef s) (incomingConnectionRef s)
    (tokenRefreshTimerRef s) (activeLogIdRef s) v (callNoteRef s).
Definition setCallNoteRef v (s : State) : State :=
  mkState (connectionStatus s) (callState s) (events s) (isClientReady s) (isMuted s)
    (isOnHold s) (lastError s) (incomingNumber s) (activeNumber s) (identityRef s)
    (deviceRef s) (activeConnectionRef s) (incomingConnectionRef s)
    (tokenRefreshTimerRef s) (activeLogIdRef s) (activeCallStartedAtRef s) v.

Definition INITIAL_CONNECTION_STATUS : ConnectionState * string :=
  (conn_idle, "Twilio client not initialised").

(** The state of a freshly mounted provider. *)
Definition initialState : State :=
  mkState INITIAL_CONNECTION_STATUS idle [] false false false None None None
    "agent" None None None None None None "".

(** ** The world around the provider

    The event loop is single threaded: every handler, and every segment of
    an [async] function between two [await]s, runs to completion.  A
    suspended call is a continuation ([Cont]) stored under the number of
    the promise it will settle.

    Conventions of the model:
    - a callback reads the React state of the latest render (the UI calls
      the callbacks of the current render); the one value a listener keeps
      from an older render, [activeNumber] in the connect listener, is
      stored with the device's listeners;
    - [user] does not change while the provider is mounted;
    - [await] of a value that is already there ([initializeClient] on a
      ready device) continues in the same turn;
    - of token rotation only the timer is modelled, not its callback nor the
      [tokenWillExpire] listener; [device.connect], [device.destroy] and
      [connection.disconnect] are taken not to throw. *)

Import UserCallLogs.

(** The listeners that [attachOnce] registers on a connection. *)
Inductive Handler :=
| OnIncomingCancel | OnIncomingReject          (* device.on('incoming') *)
| OnConnectDisconnect | OnConnectError         (* device.on('connect') *)
| OnOutRinging | OnOutCancel | OnOutReject | OnOutError.   (* makeCall *)

(** Notifications of a connection. *)
Inductive ConnEv :=
| ev_ringing | ev_cancel | ev_reject | ev_disconnect
| ev_error (msg : option string).   (* [error?.message] when it is a string *)

(** Notifications of a device. *)
Inductive DeviceEv :=
| dev_ready
| dev_error (msg : option string)
| dev_disconnect
| dev_incoming (conn : Connection)     (* a connection object new to the provider *)
| dev_connect (c : nat).

(** Who awaits [initializeClient]; a closure keeps the [user] it saw. *)
Inductive Caller :=
| ByUI
| ByMakeCall (u : User) (trimmedDestination : string)
| ByAccept (c : nat).

Inductive Cont :=
| AwaitToken (identity : string) (capturedActiveNumber : option string) (k : Caller)
| AwaitRegister (d : nat) (k : Caller)
| AwaitCreateLog (u : User) (d : nat) (normalisedDestination : string)
| AwaitAccept (c : nat)
| AwaitInboundLog.

Inductive Value := VDevice (d : nat) | VBool (b : bool).
Inductive Result := Resolved (v : Value) | Rejected (err : string).

(** How an awaited promise settles; [Failed err] is a rejection with an
    [Error] whose message is [err]. *)
Inductive Settlement :=
| TokenOk (resp : TokenResponse)
| RegisterOk
| CreateLogOk
| AcceptOk
| Failed (err : string).

(** Outcome of a synchronous SDK method: it returns, or throws a value whose
    [message] is [e] when the value is an [Error]. *)
Inductive SdkOutcome := SdkOk | SdkThrows (e : option string).

(** Calls made to the SDK, the token endpoint, timers and the call log
    service; the [trace] of a world lists them most recent first. *)
Inductive Effect :=
| FetchToken (identity : string)
| NewDevice (d : nat) (tok : string)
| Register (d : nat)
| DestroyDevice (d : nat)
| DeviceConnect (d : nat) (to : string) (c : nat)
| DisconnectAll (d : nat)
| ConnDisconnect (c : nat)
| ConnAccept (c : nat)
| ConnReject (c : nat)
| ConnMute (c : nat) (b : bool)
| ConnHold (c : nat) (b : bool)
| ConnSendDigits (c : nat) (tones : string)
| SetTimeout (ms : Z)
| ClearTimeout
| CreateUserCallLog (userId : string) (payload : gmap string FieldValue)
| FinalizeUserCallLog (userId : string) (logId : nat) (updates : gmap string FieldValue).

Record World := mkWorld {
  user : option User;                  (* useAuth(); fixed for the session *)
  st : State;
  conns : gmap nat Connection;         (* the SDK's connection objects *)
  devices : gmap nat (option string);  (* devices with listeners attached, and
                                          the [activeNumber] their closures saw *)
  listeners : list (nat * Handler);    (* attachOnce listeners, in attach order *)
  tasks : gmap nat Cont;               (* suspended calls *)
  results : list (nat * Result);       (* settled calls, most recent first *)
  nextDevice : nat;
  nextConn : nat;
  nextTask : nat;
  nextLogId : nat;
  pushes : nat;                        (* number of pushEvent calls so far *)
  trace : list Effect
}.

Definition upd (f : State -> State) (w : World) : World :=
  mkWorld (user w) (f (st w)) (conns w) (devices w) (listeners w) (tasks w) (results w)
    (nextDevice w) (nextConn w) (nextTask w) (nextLogId w) (pushes w) (trace w).
Definition setConns v (w : World) : World :=
  mkWorld (user w) (st w) v (devices w) (listeners w) (tasks w) (results w)
    (nextDevice w) (nextConn w) (nextTask w) (nextLogId w) (pushes w) (trace w).
Definition setDevices v (w : World) : World :=
  mkWorld (user w) (st w) (conns w) v (listeners w) (tasks w) (results w)
    (nextDevice w) (nextConn w) (nextTask w) (nextLogId w) (pushes w) (trace w).
Definition setListeners v (w : World) : World :=
  mkWorld (user w) (st w) (conns w) (devices w) v (tasks w) (results w)
    (nextDevice w) (nextConn w) (nextTask w) (nextLogId w) (pushes w) (trace w).
Definition setTasks v (w : World) : World :=
  mkWorld (user w) (st w) (conns w) (devices w) (listeners w) v (results w)
    (nextDevice w) (nextConn w) (nextTask w) (nextLogId w) (pushes w) (trace w).
Definition setResults v (w : World) : World :=
  mkWorld (user w) (st w) (conns w) (devices w) (listeners w) (tasks w) v
    (nextDevice w) (nextConn w) (nextTask w) (nextLogId w) (pushes w) (trace w).
Definition setNextDevice v (w : World) : World :=
  mkWorld (user w) (st w) (conns w) (devices w) (listeners w) (tasks w) (results w)
    v (nextConn w) (nextTask w) (nextLogId w) (pushes w) (trace w).
Definition setNextConn v (w : World) : World :=
  mkWorld (user w) (st w) (conns w) (devices w) (listeners w) (tasks w) (results w)
    (nextDevice w) v (nextTask w) (nextLogId w) (pushes w) (trace w).
Definition setNextTask v (w : World) : World :=
  mkWorld (user w) (st w) (conns w) (devices w) (listeners w) (tasks w) (results w)
    (nextDevice w) (nextConn w) v (nextLogId w) (pushes w) (trace w).
Definition setNextLogId v (w : World) : World :=
  mkWorld (user w) (st w) (conns w) (devices w) (listeners w) (tasks w) (results w)
    (nextDevice w) (nextConn w) (nextTask w) v (pushes w) (trace w).
Definition setPushes v (w : World) : World :=
  mkWorld (user w) (st w) (conns w) (devices w) (listeners w) (tasks w) (results w)
    (nextDevice w) (nextConn w) (nextTask w) (nextLogId w) v (trace w).
Definition emit (e : Effect) (w : World) : World :=
  mkWorld (user w) (st w) (conns w) (devices w) (listeners w) (tasks w) (results w)
    (nextDevice w) (nextConn w) (nextTask w) (nextLogId w) (pushes w) (e :: trace w).

(** A provider mounted for [u], nothing initialised yet. *)
Definition initialWorld (u : option User) : World :=
  mkWorld u initialState ∅ ∅ [] ∅ [] 0 0 0 0 0 [].

(** Statements in sequence: [w |> f |> g] runs [f], then [g]. *)
Notation "w |> f" := (f w) (at level 45, left associativity, only parsing).

Definition suspend (t : nat) (k : Cont) (w : World) : World :=
  setTasks (<[t := k]> (tasks w)) w.

Definition settle (t : nat) (r : Result) (w : World) : World :=
  w |> setTasks (delete t (tasks w)) |> setResults ((t, r) :: results w).

Definition attachOnce (c : nat) (h : Handler) (w : World) : World :=
  setListeners (listeners w ++ [(c, h)]) w.

Definition storeConn (c : nat) (conn : Connection) (w : World) : World :=
  w |> setConns (<[c := conn]> (conns w)) |> setNextConn (S c).

Definition listenDevice (d : nat) (seen : option string) (w : World) : World :=
  w |> setDevices (<[d := seen]> (devices w)) |> setNextDevice (S d).

(** [activeLogIdRef.current = logId] for the id of a document that the
    call log service has just created: ids are handed out in sequence. *)
Definition assignLogId (w : World) : World :=
  w |> upd (setActiveLogIdRef (Some (nextLogId w))) |> setNextLogId (S (nextLogId w)).

(** The connection object behind a reference. *)
Definition connection (w : World) (c : nat) : Connection :=
  default (mkConn None None None None false) (conns w !! c).

(** ** Pure helpers of the provider *)

Definition is_char (x : string) (c : ascii) : bool :=
  if decide (first_char x = Some c) then true else false.

(** [/[^a-zA-Z0-9_\-@.]/g] *)
Definition identity_char (c : ascii) : bool :=
  is_lower c || is_upper c || is_digit c
  || is_char "_" c || is_char "-" c || is_char "@" c || is_char "." c.

(** [/[^0-9+]/g] *)
Definition phone_char (c : ascii) : bool := is_digit c || is_char "+" c.

(** The class [0-9A-D#*] as written. *)
Definition tone_class (c : ascii) : bool :=
  is_digit c || between 65 68 c || is_char "#" c || is_char "*" c.

(** [Canonicalize] of a case-insensitive regular expression, on the code
    units that can reach an ASCII class: lower case letters become upper
    case; a code unit above 127 never canonicalizes into ASCII. *)
Definition canonicalize (c : ascii) : ascii :=
  if is_lower c then ascii_of_nat (code c - 32) else c.

(** [/[^0-9A-D#*]/gi]: with the [i] flag a character stays when its
    canonical form is in the class. *)
Definition tone_char (c : ascii) : bool := tone_class (canonicalize c).

Definition sanitizeIdentity (value : option string) (fallback : string) : string :=
  match value with
  | None => fallback
  | Some v =>
      if negb (truthy v) then fallback
      else
        let trimmed := trim v in
        if negb (truthy trimmed) then fallback
        else replace_chars identity_char "_"%char trimmed
  end.

Definition normalisePhoneNumber (value : option string) : option string :=
  match value with
  | None => None
  | Some v =>
      if negb (truthy v) then None
      else
        let digits := keep_chars phone_char v in
        if negb (truthy digits) then None
        else if startsWith "+"%char digits then Some digits
        else Some ("+" +:+ digits)
  end.

(** [trimmed.startsWith('+') ? trimmed : trimmed.replace(/[^0-9+]/g, '')] *)
Definition normalised (trimmedDestination : string) : string :=
  if startsWith "+"%char trimmedDestination then trimmedDestination
  else keep_chars phone_char trimmedDestination.

(** [normalisePhoneNumber(x) ?? x ?? null] *)
Definition callerOf (from : option string) : option string :=
  match normalisePhoneNumber from with
  | Some n => Some n
  | None => from
  end.

(** [Math.max(Math.round((now - startedAt) / 1000), 0)], or 0 when
    [startedAt] is falsy ([null] or 0). *)
Definition durationSeconds (now : Z) (startedAt : option Z) : Z :=
  match startedAt with
  | None => 0
  | Some t => if (t =? 0)%Z then 0%Z else Z.max ((now - t + 500) / 1000) 0
  end.

(** [Math.max((expiresInSeconds - 120) * 1000, 30_000)] *)
Definition refreshInMs (expiresInSeconds : Z) : Z :=
  Z.max ((expiresInSeconds - 120) * 1000) 30000.

(** ** The provider's callbacks *)

Section Provider.

(** The values [crypto.randomUUID()] returns, in the order of the calls. *)
Variable randomUUID : nat -> string.

Definition pushEvent (now : Z) (msg : string) (w : World) : World :=
  w |> upd (fun s => setEvents (pushEntry (mkEvent (randomUUID (pushes w)) now msg) (events s)) s)
    |> setPushes (S (pushes w)).

Definition resetEvents (w : World) : World := upd (setEvents []) w.

Definition clearDevice (w : World) : World :=
  let w :=
    match deviceRef (st w) with
    | Some d => w |> setDevices (delete d (devices w)) |> emit (DestroyDevice d)
    | None => w
    end in
  let w := w |> upd (setDeviceRef None)
             |> upd (setActiveConnectionRef None)
             |> upd (setIncomingConnectionRef None) in
  let w :=
    match tokenRefreshTimerRef (st w) with
    | Some _ => w |> emit ClearTimeout |> upd (setTokenRefreshTimerRef None)
    | None => w
    end in
  w |> upd (setIsClientReady false)
    |> upd (setConnectionStatus (conn_disconnected, "Twilio client disconnected")).

(** The timer is set; what its callback does (token rotation) is not
    part of this model. *)
Definition scheduleTokenRefresh (expiresInSeconds : option Z) (w : World) : World :=
  let w :=
    match tokenRefreshTimerRef (st w) with
    | Some _ => emit ClearTimeout w
    | None => w
    end in
  match expiresInSeconds with
  | None => w
  | Some e =>
      if (e <=? 0)%Z then w
      else w |> emit (SetTimeout (refreshInMs e))
             |> upd (setTokenRefreshTimerRef (Some (refreshInMs e)))
  end.

(** [{ status, durationSeconds, ...(note ? { note } : {}), ...extra }] *)
Definition finalUpdates (status : LogStatus) (duration : Z) (note : string)
    (extra : gmap string FieldValue) : gmap string FieldValue :=
  extra ∪
  (if truthy note then <["note" := FString note]> else fun m => m)
    (<["durationSeconds" := FNumber duration]>
     (<["status" := FString (status_string status)]> ∅)).

(** [finalizeActiveLog], up to the call of [finalizeUserCallLog]; a later
    rejection of that promise is the input [FinalizeRejected]. *)
Definition finalizeActiveLog (now : Z) (status : LogStatus)
    (extra : gmap string FieldValue) (w : World) : World :=
  match user w, activeLogIdRef (st w) with
  | Some u, Some logId =>
      let startedAt := activeCallStartedAtRef (st w) in
      let note := trim (callNoteRef (st w)) in
      w |> upd (setActiveLogIdRef None)
        |> upd (setActiveCallStartedAtRef None)
        |> upd (setCallNoteRef "")
        |> emit (FinalizeUserCallLog (uid u) logId
                   (finalUpdates status (durationSeconds now startedAt) note extra))
  | _, _ => w
  end.

Definition statusReason (msg : string) : gmap string FieldValue :=
  {["statusReason" := FString msg]}.

(** *** Listeners on connections *)

Definition handler_event (h : Handler) (ev : ConnEv) : bool :=
  match h, ev with
  | OnIncomingCancel, ev_cancel | OnOutCancel, ev_cancel => true
  | OnIncomingReject, ev_reject | OnOutReject, ev_reject => true
  | OnConnectDisconnect, ev_disconnect => true
  | OnConnectError, ev_error _ | OnOutError, ev_error _ => true
  | OnOutRinging, ev_ringing => true
  | _, _ => false
  end.

Definition errorMessage (ev : ConnEv) : string :=
  match ev with
  | ev_error (Some m) => m
  | _ => "Call error"
  end.

Definition runHandler (now : Z) (c : nat) (ev : ConnEv) (h : Handler) (w : World) : World :=
  match h with
  | OnIncomingCancel =>
      let w := pushEvent now "Incoming call cancelled by remote party" w in
      if decide (incomingConnectionRef (st w) = Some c) then
        w |> upd (setIncomingConnectionRef None)
          |> upd (setCallState idle)
          |> upd (setIncomingNumber None)
      else w
  | OnIncomingReject =>
      let w := pushEvent now "Incoming call rejected" w in
      if decide (incomingConnectionRef (st w) = Some c) then
        w |> upd (setIncomingConnectionRef None)
          |> upd (setCallState idle)
          |> upd (setIncomingNumber None)
      else w
  | OnConnectDisconnect =>
      w |> pushEvent now "Call disconnected"
        |> upd (setActiveConnectionRef None)
        |> upd (setCallState completed)
        |> upd (setIsMuted false)
        |> upd (setIsOnHold false)
        |> upd (setActiveNumber None)
        |> finalizeActiveLog now LogCompleted ∅
  | OnConnectError =>
      let message := errorMessage ev in
      w |> pushEvent now ("Call error: " +:+ message)
        |> upd (setLastError (Some message))
        |> finalizeActiveLog now LogFailed (statusReason message)
  | OnOutRinging =>
      w |> upd (setCallState ringing)
        |> pushEvent now "Call ringing"
  | OnOutCancel =>
      w |> pushEvent now "Call cancelled"
        |> upd (setCallState failed)
        |> finalizeActiveLog now LogCancelled ∅
  | OnOutReject =>
      w |> pushEvent now "Call rejected by Twilio"
        |> upd (setCallState failed)
        |> finalizeActiveLog now LogFailed (statusReason "rejected")
  | OnOutError =>
      let message := errorMessage ev in
      w |> upd (setLastError (Some message))
        |> upd (setCallState failed)
        |> pushEvent now ("Call error: " +:+ message)
        |> finalizeActiveLog now LogFailed (statusReason message)
  end.

Definition listens (c : nat) (ev : ConnEv) (l : nat * Handler) : bool :=
  (if decide (l.1 = c) then true else false) && handler_event l.2 ev.

(** The connection [c] emits [ev]: its listeners for that event run in
    attach order, and each one is detached (attachOnce). *)
Definition emitConn (now : Z) (c : nat) (ev : ConnEv) (w : World) : World :=
  let fired := List.filter (listens c ev) (listeners w) in
  let w := setListeners (List.filter (fun l => negb (listens c ev l)) (listeners w)) w in
  fold_left (fun w l => runHandler now c ev l.2 w) fired w.

(** *** Listeners on the device *)

(** The connection object that [device.connect()] returns. *)
Variable outbound : Connection.

Definition emitDevice (now : Z) (d : nat) (ev : DeviceEv) (w : World) : World :=
  match devices w !! d with
  | None => w                       (* listeners removed, or never attached *)
  | Some capturedActiveNumber =>
      match ev with
      | dev_ready =>
          w |> upd (setConnectionStatus (conn_registered, "Twilio device ready"))
            |> upd (setIsClientReady true)
            |> pushEvent now "Twilio device ready"
      | dev_error msg =>
          let message := nullish msg "Twilio device error" in
          w |> upd (setConnectionStatus (conn_error, message))
            |> upd (setLastError (Some message))
            |> pushEvent now ("Device error: " +:+ message)
      | dev_disconnect =>
          w |> upd (setConnectionStatus (conn_disconnected, "Twilio device disconnected"))
            |> upd (setIsClientReady false)
            |> pushEvent now "Twilio device disconnected"
      | dev_incoming conn =>
          let c := nextConn w in
          let caller := callerOf (From conn) in
          w |> storeConn c conn
            |> upd (setIncomingConnectionRef (Some c))
            |> upd (setCallState incoming)
            |> upd (setIncomingNumber caller)
            |> upd (setActiveNumber None)
            |> upd (setIsMuted false)
            |> upd (setIsOnHold false)
            |> upd (setLastError None)
            |> upd (setCallNoteRef "")
            |> pushEvent now ("Incoming call from " +:+ nullish caller "unknown")
            |> attachOnce c OnIncomingCancel
            |> attachOnce c OnIncomingReject
      | dev_connect c =>
          match conns w !! c with
          | None => w               (* not a connection of this SDK *)
          | Some conn =>
              let to := match To conn with Some t => Some t | None => capturedActiveNumber end in
              w |> upd (setActiveConnectionRef (Some c))
                |> upd (setCallState active)
                |> upd (setIsMuted (nullish (sdkMuted conn) false))
                |> upd (setIsOnHold (nullish (sdkOnHold conn) false))
                |> upd (setLastError None)
                |> upd (setIncomingNumber None)
                |> upd (setActiveCallStartedAtRef (Some now))
                |> upd (setActiveNumber to)
                |> pushEvent now ("Call connected with " +:+ nullish to "unknown destination")
                |> attachOnce c OnConnectDisconnect
                |> attachOnce c OnConnectError
          end
      end
  end.

(** *** makeCall and acceptIncomingCall after [await initializeClient()] *)

Definition outboundLog (to : string) : gmap string FieldValue :=
  <["direction" := FString "outbound"]> (<["to" := FString to]> ∅).

Definition makeCall_initialised (t : nat) (u : User) (d : nat)
    (trimmedDestination : string) (w : World) : World :=
  let normalisedDestination := normalised trimmedDestination in
  w |> upd (setCallNoteRef "")
    |> upd (setCallState connecting)
    |> upd (setActiveNumber (Some normalisedDestination))
    |> upd (setIsMuted false)
    |> upd (setIsOnHold false)
    |> upd (setIncomingNumber None)
    |> upd (setLastError None)
    |> emit (CreateUserCallLog (uid u) (outboundLog normalisedDestination))
    |> suspend t (AwaitCreateLog u d normalisedDestination).

(** After [createUserCallLog] settled ([created]: it returned an id). *)
Definition makeCall_connect (now : Z) (t : nat) (created : bool) (d : nat)
    (normalisedDestination : string) (w : World) : World :=
  let w := if created then assignLogId w else w in
  let c := nextConn w in
  w |> pushEvent now ("Dialling " +:+ normalisedDestination)
    |> storeConn c outbound
    |> emit (DeviceConnect d normalisedDestination c)
    |> upd (setActiveConnectionRef (Some c))
    |> attachOnce c OnOutRinging
    |> attachOnce c OnOutCancel
    |> attachOnce c OnOutReject
    |> attachOnce c OnOutError
    |> settle t (Resolved (VBool true)).

Definition acceptIncomingCall_initialised (t c : nat) (w : World) : World :=
  w |> emit (ConnAccept c) |> suspend t (AwaitAccept c).

(** [{ direction: 'inbound', from: fromNumber ?? undefined, status: 'active' }]:
    the key [from] is always there, with the value [undefined] for a caller
    without number. *)
Definition inboundLog (from : option string) : gmap string FieldValue :=
  <["status" := FString "active"]>
    (<["from" := match from with Some f => FString f | None => FUndefined end]>
       (<["direction" := FString "inbound"]> ∅)).

Definition acceptIncomingCall_accepted (now : Z) (t c : nat) (w : World) : World :=
  let conn := connection w c in
  let fromNumber := callerOf (From conn) in
  let w :=
    w |> upd (setActiveConnectionRef (Some c))
      |> upd (setIncomingConnectionRef None)
      |> upd (setActiveNumber fromNumber)
      |> upd (setIncomingNumber None)
      |> upd (setCallState active)
      |> upd (setIsMuted (nullish (sdkMuted conn) false))
      |> upd (setIsOnHold (nullish (sdkOnHold conn) false))
      |> pushEvent now ("Accepted incoming call from " +:+ nullish fromNumber "unknown")
      |> upd (setCallNoteRef "") in
  match user w with
  | Some u => w |> emit (CreateUserCallLog (uid u) (inboundLog fromNumber))
                |> suspend t AwaitInboundLog
  | None => settle t (Resolved (VBool true)) w
  end.

(** *** initializeClient *)

(** [initializeClient] returned [r] to the caller [k] of promise [t]. *)
Definition initialised (t : nat) (k : Caller) (r : string + nat) (w : World) : World :=
  match r, k with
  | inl err, _ => settle t (Rejected err) w
  | inr d, ByUI => settle t (Resolved (VDevice d)) w
  | inr d, ByMakeCall u dest => makeCall_initialised t u d dest w
  | inr d, ByAccept c => acceptIncomingCall_initialised t c w
  end.

(** Up to [await fetchAccessToken(identity)].  The values of the closure,
    [isClientReady] and [activeNumber], are read from the state at the
    call: the callback called is taken to be that of the current render
    (the code rebuilds it when [isClientReady] or [user] change, so that the
    [activeNumber] it holds can be an older one).  On a ready device the
    caller's [await] is continued in the same turn. *)
Definition initializeClient (now : Z) (t : nat) (k : Caller) (w : World) : World :=
  match user w with
  | None => initialised t k (inl "Twilio client requires an authenticated user") w
  | Some u =>
      match deviceRef (st w), isClientReady (st w) with
      | Some d, true => initialised t k (inr d) w
      | dev, _ =>
          let activeNumberSeen := activeNumber (st w) in
          let w := match dev with Some _ => clearDevice w | None => w end in
          let identity := sanitizeIdentity (Some (nullish (email u) (uid u))) "agent" in
          w |> upd (setIdentityRef identity)
            |> upd (setConnectionStatus (conn_initialising, "Initialising Twilio device"))
            |> pushEvent now ("Requesting Twilio token for " +:+ identity)
            |> emit (FetchToken identity)
            |> suspend t (AwaitToken identity activeNumberSeen k)
      end
  end.

(** From the token to [await device.register()]: the device is
    constructed, its listeners attached, and it becomes [deviceRef]. *)
Definition initializeClient_token (t : nat) (identity : string)
    (activeNumberSeen : option string) (k : Caller) (resp : TokenResponse)
    (w : World) : World :=
  let device := nextDevice w in
  w |> upd (setIdentityRef (nullish (tok_identity resp) identity))
    |> emit (NewDevice device (token resp))
    |> listenDevice device activeNumberSeen
    |> upd (setDeviceRef (Some device))
    |> scheduleTokenRefresh (expiresIn resp)
    |> emit (Register device)
    |> suspend t (AwaitRegister device k).

(** *** Operations offered to the UI *)

Definition makeCall (now : Z) (t : nat) (destination : string) (w : World) : World :=
  match user w with
  | None => settle t (Rejected "You must be signed in to place calls") w
  | Some u =>
      let trimmedDestination := trim destination in
      if negb (truthy trimmedDestination) then
        w |> upd (setLastError (Some "Enter a number to call"))
          |> settle t (Resolved (VBool false))
      else initializeClient now t (ByMakeCall u trimmedDestination) w
  end.

Definition hangUp (now : Z) (w : World) : World :=
  let w := match activeConnectionRef (st w) with
           | Some c => emit (ConnDisconnect c) w
           | None => w
           end in
  let w := match deviceRef (st w) with
           | Some d => emit (DisconnectAll d) w
           | None => w
           end in
  w |> finalizeActiveLog now LogCompleted ∅
    |> upd (setCallState idle)
    |> upd (setIsMuted false)
    |> upd (setIsOnHold false)
    |> upd (setActiveNumber None)
    |> upd (setIncomingNumber None)
    |> upd (setCallNoteRef "").

Definition acceptIncomingCall (now : Z) (t : nat) (w : World) : World :=
  match incomingConnectionRef (st w) with
  | None => settle t (Resolved (VBool false)) w
  | Some c => initializeClient now t (ByAccept c) w
  end.

Definition rejectIncomingCall (now : Z) (t : nat) (reason : option string)
    (sdk : SdkOutcome) (w : World) : World :=
  match incomingConnectionRef (st w) with
  | None => settle t (Resolved (VBool false)) w
  | Some c =>
      match sdk with
      | SdkOk =>
          let why := match reason with
                     | Some r => if truthy r then ": " +:+ r else ""
                     | None => ""
                     end in
          w |> emit (ConnReject c)
            |> upd (setIncomingConnectionRef None)
            |> upd (setCallState idle)
            |> upd (setIncomingNumber None)
            |> pushEvent now ("Rejected incoming call" +:+ why)
            |> settle t (Resolved (VBool true))
      | SdkThrows e =>
          let message := nullish e "Failed to reject call" in
          w |> upd (setLastError (Some message))
            |> pushEvent now ("Unable to reject call: " +:+ message)
            |> settle t (Resolved (VBool false))
      end
  end.

(** [connection.mute(b)] and [connection.hold(b)] on the SDK's object. *)
Definition sdkMute (b : bool) (conn : Connection) : Connection :=
  mkConn (From conn) (To conn) (match sdkMuted conn with Some _ => Some b | None => None end)
    (sdkOnHold conn) (hasHold conn).
Definition sdkHold (b : bool) (conn : Connection) : Connection :=
  mkConn (From conn) (To conn) (sdkMuted conn)
    (match sdkOnHold conn with Some _ => Some b | None => None end) (hasHold conn).

Definition alterConn (c : nat) (f : Connection -> Connection) (w : World) : World :=
  setConns (alter f c (conns w)) w.

(** [toggleMute] is rebuilt when [isMuted] changes: [isMuted] is the value
    its closure holds, the flag of the render that built it. *)
Definition toggleMute (now : Z) (t : nat) (isMuted : bool) (sdk : SdkOutcome)
    (w : World) : World :=
  match activeConnectionRef (st w) with
  | None => settle t (Resolved (VBool false)) w
  | Some c =>
      let nextMuted := negb (nullish (sdkMuted (connection w c)) isMuted) in
      match sdk with
      | SdkOk =>
          w |> emit (ConnMute c nextMuted)
            |> alterConn c (sdkMute nextMuted)
            |> upd (setIsMuted nextMuted)
            |> pushEvent now (if nextMuted then "Call muted" else "Call unmuted")
            |> settle t (Resolved (VBool true))
      | SdkThrows e =>
          let message := nullish e "Failed to toggle mute" in
          w |> upd (setLastError (Some message))
            |> pushEvent now ("Mute toggle failed: " +:+ message)
            |> settle t (Resolved (VBool false))
      end
  end.

Definition toggleHold_failed (now : Z) (t : nat) (message : string) (w : World) : World :=
  w |> upd (setLastError (Some message))
    |> pushEvent now ("Hold toggle failed: " +:+ message)
    |> settle t (Resolved (VBool false)).

(** [toggleHold] is rebuilt when [isOnHold] changes: [isOnHold] is the
    value its closure holds, the flag of the render that built it. *)
Definition toggleHold (now : Z) (t : nat) (isOnHold : bool) (sdk : SdkOutcome)
    (w : World) : World :=
  match activeConnectionRef (st w) with
  | None => settle t (Resolved (VBool false)) w
  | Some c =>
      let nextHold := negb (nullish (sdkOnHold (connection w c)) isOnHold) in
      if hasHold (connection w c) then
        match sdk with
        | SdkOk =>
            w |> emit (ConnHold c nextHold)
              |> alterConn c (sdkHold nextHold)
              |> upd (setIsOnHold nextHold)
              |> pushEvent now (if nextHold then "Call placed on hold" else "Call resumed")
              |> settle t (Resolved (VBool true))
        | SdkThrows e => toggleHold_failed now t (nullish e "Failed to toggle hold") w
        end
      else toggleHold_failed now t "Hold is not supported for this call" w
  end.

Definition sendDigits (now : Z) (t : nat) (digits : string) (sdk : SdkOutcome)
    (w : World) : World :=
  match activeConnectionRef (st w) with
  | None => settle t (Resolved (VBool false)) w
  | Some c =>
      let cleaned := keep_chars tone_char digits in
      if negb (truthy cleaned) then settle t (Resolved (VBool false)) w
      else
        match sdk with
        | SdkOk =>
            w |> emit (ConnSendDigits c cleaned)
              |> pushEvent now ("Sent DTMF " +:+ cleaned)
              |> settle t (Resolved (VBool true))
        | SdkThrows e =>
            let message := nullish e "Failed to send tones" in
            w |> upd (setLastError (Some message))
              |> pushEvent now ("DTMF failed: " +:+ message)
              |> settle t (Resolved (VBool false))
        end
  end.

Definition setCallNote (note : string) (w : World) : World :=
  upd (setCallNoteRef note) w.

(** *** The event loop *)

(** The promise [t] settles and the call suspended on it goes on. *)
Definition resume (now : Z) (t : nat) (s : Settlement) (w : World) : World :=
  match tasks w !! t, s with
  | Some (AwaitToken identity seen k), TokenOk resp =>
      initializeClient_token t identity seen k resp w
  | Some (AwaitToken _ _ k), Failed err => initialised t k (inl err) w
  | Some (AwaitRegister d k), RegisterOk => initialised t k (inr d) w
  | Some (AwaitRegister _ k), Failed err => initialised t k (inl err) w
  | Some (AwaitCreateLog _ d dest), CreateLogOk => makeCall_connect now t true d dest w
  | Some (AwaitCreateLog _ d dest), Failed _ => makeCall_connect now t false d dest w
  | Some (AwaitAccept c), AcceptOk => acceptIncomingCall_accepted now t c w
  | Some (AwaitAccept c), Failed message =>
      w |> upd (setLastError (Some message))
        |> pushEvent now ("Unable to accept call: " +:+ message)
        |> settle t (Resolved (VBool false))
  | Some AwaitInboundLog, CreateLogOk =>
      w |> assignLogId |> settle t (Resolved (VBool true))
  | Some AwaitInboundLog, Failed _ => settle t (Resolved (VBool true)) w
  | _, _ => w
  end.

Inductive Input :=
(* calls from the UI *)
| InitializeClient
| MakeCall (destination : string)
| AcceptIncomingCall
| RejectIncomingCall (reason : option string) (sdk : SdkOutcome)
| HangUp
| ToggleMute (sdk : SdkOutcome)
| ToggleHold (sdk : SdkOutcome)
| SendDigits (digits : string) (sdk : SdkOutcome)
| SetCallNote (note : string)
| ResetEvents
(* the environment *)
| Settle (t : nat) (s : Settlement)
| DeviceEvent (d : nat) (ev : DeviceEv)
| ConnEvent (c : nat) (ev : ConnEv)
| FinalizeRejected.     (* a finalizeUserCallLog promise rejected *)

(** A call from the UI returns the promise numbered [nextTask]. *)
Definition called (op : nat -> World -> World) (w : World) : World :=
  op (nextTask w) (setNextTask (S (nextTask w)) w).

Definition step (now : Z) (i : Input) (w : World) : World :=
  match i with
  | InitializeClient => called (fun t => initializeClient now t ByUI) w
  | MakeCall destination => called (fun t => makeCall now t destination) w
  | AcceptIncomingCall => called (acceptIncomingCall now) w
  | RejectIncomingCall reason sdk => called (fun t => rejectIncomingCall now t reason sdk) w
  | HangUp => hangUp now w
  (* the UI calls the [toggleMute] and [toggleHold] of the current render *)
  | ToggleMute sdk => called (fun t => toggleMute now t (isMuted (st w)) sdk) w
  | ToggleHold sdk => called (fun t => toggleHold now t (isOnHold (st w)) sdk) w
  | SendDigits digits sdk => called (fun t => sendDigits now t digits sdk) w
  | SetCallNote note => setCallNote note w
  | ResetEvents => resetEvents w
  | Settle t s => resume now t s w
  | DeviceEvent d ev => emitDevice now d ev w
  | ConnEvent c ev => emitConn now c ev w
  | FinalizeRejected => pushEvent now "Unable to update call log with final status" w
  end.

(** Inputs in the order they are delivered, each with the clock's reading. *)
Definition run (ins : list (Z * Input)) (w : World) : World :=
  fold_left (fun w i => step i.1 i.2 w) ins w.

(** The result of the call that returned promise [t]. *)
Definition result (w : World) (t : nat) : option Result :=
  snd <$> List.find (fun r => Nat.eqb r.1 t) (results w).

Definition count_effects (p : Effect -> bool) (w : World) : nat :=
  length (List.filter p (trace w)).

End Provider.

(** ** The voice server ([server/index.js]) *)

Module VoiceServer.

(** [/^\+?[1-9]\d{6,14}$/.test(value)] *)
Definition isE164 (value : string) : bool :=
  let digits :=
    match value with
    | String c r => if is_char "+" c then r else value
    | EmptyString => value
    end in
  match digits with
  | String d rest =>
      between 49 57 d && forall_chars is_digit rest
      && (6 <=? String.length rest)%nat && (String.length rest <=? 14)%nat
  | EmptyString => false
  end.

(** [/^client:/i] matches at the start of [to]. *)
Fixpoint prefix_ci (p to : string) : bool :=
  match p, to with
  | EmptyString, _ => true
  | String a p', String b to' =>
      (if decide (canonicalize a = canonicalize b) then true else false) && prefix_ci p' to'
  | String _ _, EmptyString => false
  end.

Fixpoint drop_chars (n : nat) (s : string) : string :=
  match n, s with
  | S n', String _ r => drop_chars n' r
  | _, _ => s
  end.

(** [to.replace(/^client:/i, '')] *)
Definition stripClient (to : string) : string :=
  if prefix_ci "client:" to then drop_chars 7 to else to.

(** The noun of the [<Dial>] verb that [/api/twilio/voice] answers with. *)
Inductive Dial := DialNumber (number : string) | DialClient (identity : string).

(** The branch on [to] of the voice webhook; [To] is [None] when
    [req.body.To] is no string. *)
Definition voiceTarget (To : option string) (defaultIdentity : string) : Dial :=
  let to := match To with Some s => trim s | None => "" end in
  if truthy to && negb (String.prefix "client:" to) && isE164 to then
    DialNumber (if startsWith "+"%char to then to else "+" +:+ to)
  else if truthy to then
    let clientIdentity := stripClient to in
    DialClient (if truthy clientIdentity then clientIdentity else defaultIdentity)
  else DialClient defaultIdentity.

(** The identity a token is minted for; [identity] is [None] when
    [req.query.identity] is no string. *)
Definition tokenIdentity (identity : option string) (defaultIdentity : string) : string :=
  let identityParam := match identity with Some s => trim s | None => "" end in
  if (0 <? String.length identityParam)%nat then identityParam else defaultIdentity.

End VoiceServer.

(** ** The call log page ([src/pages/CallLogsPage.tsx]) *)

Module CallLogsPage.

(** [toLowerCase] on code units of the Latin-1 range. *)
Definition toLower (c : ascii) : ascii :=
  if is_upper c || (between 192 222 c && negb (code c =? 215)%nat)
  then ascii_of_nat (code c + 32) else c.

Fixpoint toLowerCase (s : string) : string :=
  match s with
  | EmptyString => EmptyString
  | String c r => String (toLower c) (toLowerCase r)
  end.

Definition includes (l : list string) (v : string) : bool :=
  existsb (String.eqb v) l.

(** [status] is [None] when the field is no string. *)
Definition normalizeStatus (status : option string) : string :=
  let value := match status with Some s => toLowerCase s | None => "" end in
  if includes ["cancelled"; "canceled"] value then "cancelled"
  else if includes ["failed"; "error"; "busy"] value then "failed"
  else if includes ["completed"; "complete"; "ended"] value then "completed"
  else if truthy value then value else "completed".

Definition digit (n : N) : ascii := ascii_of_N (48 + n).

Definition pad2 (n : N) : string :=
  String (digit (n / 10)) (String (digit (n mod 10)) EmptyString).

(** The largest time value of a [Date], in milliseconds. *)
Definition maxTime : N := 8640000000000000.

(** The first second of the year 10000: from there on [toISOString]
    writes the year with a sign and six digits, [+010000-01-01T00:00:00.000Z]. *)
Definition extendedYear : N := 253402300800.

(** [new Date(durationSeconds * 1000).toISOString().substring(14, 19)] for
    a whole number of seconds.  Up to the year 9999 the text is
    [YYYY-MM-DDTHH:mm:ss.sssZ] and the five characters are the minutes and
    the seconds of the time of day; with a six-digit year they are the
    hours and the minutes; [toISOString] throws a [RangeError] beyond the
    range of [Date]. *)
Definition clock (durationSeconds : N) : option string :=
  if (durationSeconds * 1000 <=? maxTime)%N then
    if (durationSeconds <? extendedYear)%N
    then Some (pad2 (durationSeconds / 60 mod 60) +:+ ":" +:+ pad2 (durationSeconds mod 60))
    else Some (pad2 (durationSeconds / 3600 mod 24) +:+ ":"
               +:+ pad2 (durationSeconds / 60 mod 60))
  else None.

(** Reading such a text back as a number of seconds. *)
Definition digitValue (c : ascii) : N := N_of_ascii c - 48.

Definition readClock (s : string) : option N :=
  match s with
  | String m1 (String m2 (String _ (String s1 (String s2 EmptyString)))) =>
      Some ((digitValue m1 * 10 + digitValue m2) * 60 + digitValue s1 * 10 + digitValue s2)%N
  | _ => None
  end.

End CallLogsPage.

(** ** The document of a call as the store holds it *)

Section StoredDocument.

Import UserCallLogs.

(** The [extra] argument of [finalizeActiveLog]: nothing, or a reason. *)
Definition extraOf (reason : option string) : gmap string FieldValue :=
  match reason with Some m => statusReason m | None => ∅ end.

(** What [addDoc] stores for the fields of [createUserCallLog], and what
    [updateDoc] makes of it with the payload of [finalizeUserCallLog]. *)
Definition createdDoc (created : Z) (userId : string) (payload : gmap string FieldValue)
    : gmap string FieldValue :=
  match createUserCallLog true userId payload with
  | inr (AddDoc _ fields) => applyUpdate created fields ∅
  | _ => ∅
  end.

Definition finalizedDoc (ended : Z) (userId : string) (logId : nat)
    (updates doc : gmap string FieldValue) : gmap string FieldValue :=
  match finalizeUserCallLog true userId logId updates with
  | inr (UpdateDoc _ _ payload) => applyUpdate ended payload doc
  | _ => doc
  end.

End StoredDocument.

(** ** Views of a world used in the statements *)

(** The finalizations in a trace, most recent first: document id and the
    updates handed to [finalizeUserCallLog]. *)
Definition finals (tr : list Effect) : list (nat * gmap string FieldValue) :=
  omap (fun e => match e with
                 | FinalizeUserCallLog _ logId updates => Some (logId, updates)
                 | _ => None
                 end) tr.

(** What [makeCall] must leave alone when it rejects. *)
Definition callView (s : State) :=
  (callState s, isMuted s, isOnHold s,
   activeLogIdRef s, activeCallStartedAtRef s, callNoteRef s).

(** What a notification of a call that is not tracked should leave alone. *)
Definition tracking (s : State) :=
  (callState s, isMuted s, isOnHold s, activeConnectionRef s, incomingConnectionRef s).

(** The listeners that put the call state in [completed] or [failed]. *)
Definition terminalListeners : list Handler :=
  [OnConnectDisconnect; OnOutCancel; OnOutReject; OnOutError].

(** The feed respects its cap. *)
Definition feedOk (w : World) : Prop := length (events (st w)) <= MAX_EVENT_ENTRIES.


(** What the log bookkeeping of a world must satisfy: no document is
    finalized twice, every finalization carries a duration that is not
    negative, and the tracked document has not been finalized yet. *)
Definition log_ok (active : option nat) (next : nat)
    (fs : list (nat * gmap string FieldValue)) : Prop :=
  NoDup fs.*1
  /\ Forall (fun f => f.1 < next
               /\ exists d, f.2 !! "durationSeconds" = Some (FNumber d) /\ (0 <= d)%Z) fs
  /\ (forall logId, active = Some logId -> logId < next /\ logId ∉ fs.*1).

Definition Inv (w : World) : Prop :=
  log_ok (activeLogIdRef (st w)) (nextLogId w) (finals (trace w)).

(** ** Concrete sessions, used to run the model *)

Module Scenario.

Definition uuid (n : nat) : string := "event-" +:+ pretty n.

(** A connection as the voice SDK makes them: it has [isMuted()], but
    neither [isOnHold()] nor [hold()]. *)
Definition plain : Connection := mkConn None None (Some false) None false.


Definition alice : User := mkUser "uid-alice" (Some "alice@example.com").

Definition grant : TokenResponse :=
  mkToken "jwt" (Some "alice@example.com") (Some 3600%Z).

Definition mounted : World := initialWorld (Some alice).

(** [initializeClient()] runs to the end and the device reports ready. *)
Definition toRegistered : list (Z * Input) :=
  [(1000, InitializeClient); (1100, Settle 0 (TokenOk grant));
   (1200, Settle 0 RegisterOk); (1300, DeviceEvent 0 dev_ready)]%Z.

(** Scenario A: [makeCall("+12025550123")] and the creation of its log,
    then the SDK reports ringing and the connection. *)
Definition toDialled : list (Z * Input) :=
  (toRegistered
   ++ [(2000, MakeCall "+12025550123"); (2100, Settle 1 CreateLogOk)]%Z)%list.

Definition toConnected : list (Z * Input) :=
  (toDialled
   ++ [(2200, ConnEvent 0 ev_ringing); (2300, DeviceEvent 0 (dev_connect 0))]%Z)%list.

Definition registered (outbound : Connection) : World :=
  run uuid outbound toRegistered mounted.

Definition dialled (outbound : Connection) : World :=
  run uuid outbound toDialled mounted.

Definition connected (outbound : Connection) : World :=
  run uuid outbound toConnected mounted.

(** A feed that is full: one hundred rejected finalizations were logged. *)
Definition fullFeed : World :=
  run uuid plain (repeat (1000%Z, FinalizeRejected) 100) mounted.

(** Effects of interest in a trace. *)
Definition is_NewDevice (e : Effect) : bool :=
  match e with NewDevice _ _ => true | _ => false end.
Definition is_Register (e : Effect) : bool :=
  match e with Register _ => true | _ => false end.
Definition is_DestroyDevice (e : Effect) : bool :=
  match e with DestroyDevice _ => true | _ => false end.

End Scenario.

(** * Properties *)

(** Unfold the provider's callbacks down to assignments. *)
Ltac unfold_ops :=
  unfold step, called, resume, initialised, initializeClient,
    initializeClient_token, makeCall, makeCall_initialised, makeCall_connect,
    acceptIncomingCall, acceptIncomingCall_initialised, acceptIncomingCall_accepted,
    rejectIncomingCall, hangUp, toggleMute, toggleHold, toggleHold_failed, sendDigits,
    setCallNote, resetEvents, emitDevice, clearDevice, scheduleTokenRefresh.

(** ** Strings *)

Section StringFacts.

Implicit Types (s r : string) (c : ascii) (p : ascii -> bool).

Lemma keep_chars_forall p s : forall_chars p (keep_chars p s) = true.
Proof.
  induction s as [|c r IH]; simpl; [done|].
  destruct (p c) eqn:Hc; simpl; [rewrite Hc|]; done.
Qed.


Lemma keep_chars_id p s : forall_chars p s = true -> keep_chars p s = s.
Proof.
  induction s as [|c r IH]; simpl; [done|].
  intros [Hc Hr]%andb_prop. rewrite Hc. by rewrite IH.
Qed.

Lemma trimStart_split s :
  exists pre, s = pre +:+ trimStart s /\ forall_chars is_ws pre = true.
Proof.
  induction s as [|c r [pre [E Hpre]]]; simpl.
  - by exists "".
  - destruct (is_ws c) eqn:Hc.
    + exists (String c pre). simpl. rewrite Hc, Hpre. split; [|done].
      change (String c r = String c (pre +:+ trimStart r)). by f_equal.
    + by exists "".
Qed.

Lemma trimEnd_split s :
  exists suf, s = trimEnd s +:+ suf /\ forall_chars is_ws suf = true.
Proof.
  induction s as [|c r [suf [E Hsuf]]]; simpl.
  - by exists "".
  - destruct (trimEnd r) as [|c' r'] eqn:Hr.
    + destruct (is_ws c) eqn:Hc.
      * exists (String c suf). simpl. rewrite Hc, Hsuf. split; [|done].
        change (String c r = String c suf). f_equal. exact E.
      * exists suf. split; [|done].
        change (String c r = String c suf). f_equal. exact E.
    + exists suf. split; [|done].
      change (String c r = String c (String c' r' +:+ suf)). by f_equal.
Qed.

Lemma trimStart_first s c : first_char (trimStart s) = Some c -> is_ws c = false.
Proof.
  induction s as [|c' r IH]; simpl; [done|].
  destruct (is_ws c') eqn:Hc; [done|]. simpl. by intros [= <-].
Qed.

Lemma trimEnd_first s c : first_char (trimEnd s) = Some c -> first_char s = Some c.
Proof.
  destruct s as [|c' r]; simpl; [done|].
  destruct (trimEnd r); [destruct (is_ws c')|]; simpl; done.
Qed.

Lemma trimEnd_last s c : last_char (trimEnd s) = Some c -> is_ws c = false.
Proof.
  induction s as [|c' r IH]; simpl; [done|].
  destruct (trimEnd r) as [|c'' r'] eqn:Hr.
  - destruct (is_ws c') eqn:Hc; simpl; [done|]. by intros [= <-].
  - intros H. apply IH. exact H.
Qed.

Lemma trimStart_fixed s :
  (forall c, first_char s = Some c -> is_ws c = false) -> trimStart s = s.
Proof.
  destruct s as [|c r]; simpl; [done|].
  intros H. by rewrite (H c eq_refl).
Qed.

Lemma trimEnd_idempotent s : trimEnd (trimEnd s) = trimEnd s.
Proof.
  induction s as [|c r IH]; simpl; [done|].
  destruct (trimEnd r) as [|c' r'] eqn:Hr.
  - destruct (is_ws c) eqn:Hc; simpl; [done|]. by rewrite Hc.
  - change (trimEnd (String c (String c' r'))) with
      (match trimEnd (String c' r') with
       | "" => if is_ws c then "" else String c ""
       | r'' => String c r''
       end).
    by rewrite IH.
Qed.

(** [trim] removes a run of white space at each end, and nothing else. *)
Lemma trim_split s :
  exists pre suf, s = pre +:+ trim s +:+ suf
    /\ forall_chars is_ws pre = true /\ forall_chars is_ws suf = true.
Proof.
  destruct (trimStart_split s) as [pre [E1 H1]].
  destruct (trimEnd_split (trimStart s)) as [suf [E2 H2]].
  exists pre, suf. unfold trim. by rewrite <- E2, <- E1.
Qed.

Lemma trim_first s c : first_char (trim s) = Some c -> is_ws c = false.
Proof. intros H. by apply (trimStart_first s), trimEnd_first. Qed.

Lemma trim_last s c : last_char (trim s) = Some c -> is_ws c = false.
Proof. apply trimEnd_last. Qed.

Lemma trim_idempotent s : trim (trim s) = trim s.
Proof.
  unfold trim at 1. rewrite (trimStart_fixed (trim s)).
  - apply trimEnd_idempotent.
  - apply trim_first.
Qed.

Lemma truthy_length s : truthy s = (0 <? String.length s)%nat.
Proof. by destruct s. Qed.

(** The characters that [/[^0-9A-D#*]/gi] leaves in place. *)
Lemma tone_char_spec c :
  tone_char c = true <-> In c (list_ascii_of_string "0123456789ABCDabcd#*").
Proof.
  destruct c as [[] [] [] [] [] [] [] []]; vm_compute; split;
    solve [ done | intros _; tauto | intros H; decompose [or] H; done ].
Qed.

Lemma tone_class_spec c :
  tone_class c = true <-> In c (list_ascii_of_string "0123456789ABCD#*").
Proof.
  destruct c as [[] [] [] [] [] [] [] []]; vm_compute; split;
    solve [ done | intros _; tauto | intros H; decompose [or] H; done ].
Qed.

End StringFacts.

(** ** Event feed *)

Section EventFeed.

Variable randomUUID : nat -> string.

Lemma pushEntry_cons e prev : pushEntry e prev = e :: take 99 prev.
Proof. reflexivity. Qed.

Lemma length_pushEntry e prev : length (pushEntry e prev) <= MAX_EVENT_ENTRIES.
Proof. unfold pushEntry. rewrite length_take. lia. Qed.

Lemma events_pushEvent now msg w :
  events (st (pushEvent randomUUID now msg w))
  = pushEntry (mkEvent (randomUUID (pushes w)) now msg) (events (st w)).
Proof. reflexivity. Qed.

Lemma take_removelast (l : list EventEntry) n :
  length l = S n -> take n l = removelast l.
Proof.
  intros H. rewrite removelast_firstn_len. by rewrite H.
Qed.

(** On a feed within the cap, [pushEvent] puts the new entry at the head
    and drops the last entry exactly when the feed was full. *)
Lemma pushEvent_feed now msg (w : World) :
  length (events (st w)) <= 100 ->
  let prev := events (st w) in
  let feed := events (st (pushEvent randomUUID now msg w)) in
  length feed <= 100
  /\ feed = mkEvent (randomUUID (pushes w)) now msg
            :: (if decide (length prev = 100) then removelast prev else prev)
  /\ (forall i, S i < 100 -> feed !! S i = prev !! i).
Proof.
  intros Hlen prev feed. subst feed. rewrite events_pushEvent. fold prev.
  split; [apply length_pushEntry|]. rewrite pushEntry_cons. split.
  - f_equal. case_decide as Hfull.
    + by apply take_removelast.
    + apply take_ge. unfold prev in *. lia.
  - intros i Hi. simpl. apply lookup_take_lt. lia.
Qed.

End EventFeed.

(** ** Call log service *)

Section CallLogService.

Import UserCallLogs.

Implicit Types (updates doc : gmap string FieldValue).

Lemma note_of_trimmed updates c :
  (first_char (note_of updates) = Some c -> is_ws c = false)
  /\ (last_char (note_of updates) = Some c -> is_ws c = false).
Proof.
  unfold note_of. destruct (updates !! "note") as [[]|]; simpl; try done.
  split; [apply trim_first | apply trim_last].
Qed.

(** C10. [finalizeUserCallLog] trims the note: what it sends is the note
    without the white space at its two ends.  A note that is empty after
    trimming (or that is no string) is sent as the delete sentinel, so the
    field is removed from the record instead of being stored empty;
    [endedAt] is always set to the server's time; the fields of [updates]
    other than these two are written as they came. *)
Theorem finalizeUserCallLog_note_endedAt userId logId updates :
  let note := note_of updates in
  exists payload,
    finalizeUserCallLog true userId logId updates = inr (UpdateDoc userId logId payload)
    /\ payload !! "endedAt" = Some FServerTimestamp
    /\ payload !! "note" = Some (if truthy note then FString note else FDeleteField)
    /\ (forall raw, updates !! "note" = Some (FString raw) ->
          note = trim raw
          /\ exists pre suf, raw = pre +:+ note +:+ suf
               /\ forall_chars is_ws pre = true /\ forall_chars is_ws suf = true)
    /\ (forall c, (first_char note = Some c -> is_ws c = false)
                  /\ (last_char note = Some c -> is_ws c = false))
    /\ (forall k, k <> "note" -> k <> "endedAt" -> payload !! k = updates !! k)
    /\ (forall now doc,
          applyUpdate now payload doc !! "endedAt" = Some (FTimestamp now)
          /\ applyUpdate now payload doc !! "note"
             = if truthy note then Some (FString note) else None).
Proof.
  intros note. eexists. split; [reflexivity|]. rewrite <- truthy_length. fold note.
  assert (Hne : "endedAt" <> "note") by done.
  split; [by rewrite lookup_insert_eq|].
  split; [by rewrite lookup_insert_ne, lookup_insert_eq|].
  split.
  { intros raw Hraw.
    assert (E : note = trim raw) by (unfold note, note_of; by rewrite Hraw).
    split; [exact E|]. rewrite E. apply trim_split. }
  split; [apply note_of_trimmed|].
  split; [intros k Hk1 Hk2; by rewrite !lookup_insert_ne|].
  intros now doc. unfold applyUpdate. rewrite !lookup_merge.
  rewrite lookup_insert_eq, lookup_insert_ne, lookup_insert_eq by done.
  split; [done|]. by destruct (truthy note), (doc !! "note").
Qed.

End CallLogService.

(** ** Media controls *)

Section MediaControls.

Variable randomUUID : nat -> string.
Variable outbound : Connection.

Local Abbreviation step := (step randomUUID outbound).

Lemma result_settle t r w : result (settle t r w) t = Some r.
Proof. unfold result, settle. simpl. by rewrite Nat.eqb_refl. Qed.

Lemma connection_alter c f w :
  connection (alterConn c f w) c
  = match conns w !! c with Some conn => f conn | None => connection w c end.
Proof.
  unfold connection, alterConn. simpl. rewrite lookup_alter_eq.
  by destruct (conns w !! c).
Qed.


End MediaControls.

(** ** Tones *)

Section Tones.

Variable randomUUID : nat -> string.


End Tones.

(** ** Device lifecycle *)

Section DeviceLifecycle.

Variable randomUUID : nat -> string.
Variable outbound : Connection.

Local Abbreviation step := (step randomUUID outbound).

(** A call of [initializeClient()] that does not find a ready device never
    waits for a call already in flight: it requests a token of its own. *)
Lemma initializeClient_own_fetch now u (w : World) :
  user w = Some u ->
  isClientReady (st w) = false ->
  let w' := step now InitializeClient w in
  exists identity seen,
    tasks w' !! nextTask w = Some (AwaitToken identity seen ByUI)
    /\ trace w' = FetchToken identity
                  :: trace (match deviceRef (st w) with Some _ => clearDevice w | None => w end).
Proof.
  intros Hu Hready w'. subst w'. unfold step, called, initializeClient. simpl.
  rewrite Hu, Hready.
  destruct (deviceRef (st w)) as [d|] eqn:Hd; simpl;
    do 2 eexists; (split; [apply lookup_insert_eq|]); try done.
  unfold clearDevice. simpl. rewrite Hd. simpl.
  by destruct (tokenRefreshTimerRef (st w)).
Qed.

(** Every call that receives its token constructs a device of its own,
    makes it [deviceRef] and registers it. *)
Lemma token_constructs_device now t identity seen k resp (w : World) :
  tasks w !! t = Some (AwaitToken identity seen k) ->
  let w' := step now (Settle t (TokenOk resp)) w in
  deviceRef (st w') = Some (nextDevice w)
  /\ nextDevice w' = S (nextDevice w)
  /\ tasks w' !! t = Some (AwaitRegister (nextDevice w) k)
  /\ count_effects Scenario.is_NewDevice w' = S (count_effects Scenario.is_NewDevice w)
  /\ count_effects Scenario.is_Register w' = S (count_effects Scenario.is_Register w).
Proof.
  intros Ht w'. subst w'. unfold step, resume. rewrite Ht.
  unfold initializeClient_token, scheduleTokenRefresh, count_effects. simpl.
  destruct (tokenRefreshTimerRef (st w)), (expiresIn resp) as [e|];
    try destruct (e <=? 0)%Z; simpl; by rewrite lookup_insert_eq.
Qed.

End DeviceLifecycle.

Section Sessions.

Import Scenario.

(** C1 at its failing input.  Two [initializeClient()] issued back to back
    on a provider without device: both fetch a token, both construct a
    device and both call [register()]; the callers get two different
    devices, and the first one is no longer [deviceRef] although it was
    never destroyed and its listeners are still attached. *)
Theorem initializeClient_back_to_back_two_devices :
  let w :=
    run uuid plain
      [(1000, InitializeClient); (1000, InitializeClient);
       (1100, Settle 0 (TokenOk grant)); (1100, Settle 1 (TokenOk grant));
       (1200, Settle 0 RegisterOk); (1200, Settle 1 RegisterOk)]%Z
      mounted in
  count_effects is_NewDevice w = 2
  /\ count_effects is_Register w = 2
  /\ result w 0 = Some (Resolved (VDevice 0))
  /\ result w 1 = Some (Resolved (VDevice 1))
  /\ deviceRef (st w) = Some 1
  /\ count_effects is_DestroyDevice w = 0
  /\ is_Some (devices w !! 0).
Proof. vm_compute. repeat split; by eexists. Qed.


(** C3 at its failing input.  Call 0 is connected and hung up, call 1 is
    started; the disconnect notification of call 0 arrives afterwards.  It
    is applied although connection 0 is no longer tracked: the new call
    loses its connection reference, is shown as completed and its log
    (document 1) is finalized. *)
Theorem stale_disconnect_alters_new_call :
  let before :=
    run uuid plain
      [(5000, HangUp); (6000, MakeCall "+442079460012"); (6100, Settle 2 CreateLogOk)]%Z
      (connected plain) in
  let after := step uuid plain 6200 (ConnEvent 0 ev_disconnect) before in
  activeConnectionRef (st before) = Some 1
  /\ callState (st before) = connecting
  /\ activeLogIdRef (st before) = Some 1
  /\ activeConnectionRef (st after) = None
  /\ callState (st after) = completed
  /\ activeLogIdRef (st after) = None
  /\ exists updates,
       trace after = FinalizeUserCallLog "uid-alice" 1 updates :: trace before.
Proof. vm_compute. repeat split; eexists; reflexivity. Qed.

(** C5 is not what the code does: after [hangUp()] the call state is
    [idle], not [completed]. *)
Lemma hangUp_leaves_idle :
  let w := step uuid plain 9000 HangUp (connected plain) in
  callState (st (connected plain)) = active
  /\ callState (st w) = idle
  /\ callState (st w) <> completed.
Proof. vm_compute. done. Qed.

(** C6 at its failing input.  The connected call of scenario A is muted,
    then its connection reports an error: the state becomes [failed] and
    the mute flag is still set. *)
Theorem failed_call_keeps_mute_flag :
  let w :=
    run uuid plain
      [(3000, ToggleMute SdkOk); (4000, ConnEvent 0 (ev_error (Some "31003")))]%Z
      (connected plain) in
  callState (st (connected plain)) = active
  /\ callState (st w) = failed
  /\ isMuted (st w) = true.
Proof. vm_compute. done. Qed.



(** C4 at its failing inputs.  The start time of a call is cleared only
    when a log is finalized.  A first call whose log could not be created
    connects at 2300 and is disconnected: nothing is finalized and the
    start time stays.  A second call, whose log is document 0, never
    connects and is cancelled at 60300: its log is finalized with a
    duration of 58 seconds, not 0.  And an incoming call that is
    disconnected before its log has been created reaches [completed] with
    no finalization at all: document 0 is tracked afterwards and left
    open. *)
Theorem never_connected_call_finalized_with_stale_duration :
  let first :=
    run uuid plain
      [(2000, MakeCall "+12025550123"); (2100, Settle 1 (Failed "unavailable"));
       (2300, DeviceEvent 0 (dev_connect 0)); (5000, ConnEvent 0 ev_disconnect)]%Z
      (registered plain) in
  let second :=
    run uuid plain
      [(60000, MakeCall "+442079460012"); (60100, Settle 2 CreateLogOk)]%Z first in
  let cancelled := step uuid plain 60300 (ConnEvent 1 ev_cancel) second in
  let inbound :=
    run uuid plain
      [(6000, DeviceEvent 0 (dev_incoming (mkConn (Some "+12025550199") None None None false)));
       (6100, AcceptIncomingCall); (6200, Settle 1 AcceptOk);
       (6300, DeviceEvent 0 (dev_connect 0)); (9000, ConnEvent 0 ev_disconnect);
       (9100, Settle 1 CreateLogOk)]%Z
      (registered plain) in
  (callState (st first) = completed
   /\ finals (trace first) = []
   /\ activeCallStartedAtRef (st first) = Some 2300%Z)
  /\ (activeConnectionRef (st second) = Some 1
      /\ callState (st second) = connecting
      /\ activeLogIdRef (st second) = Some 0)
  /\ (callState (st cancelled) = failed
      /\ exists updates,
           trace cancelled = FinalizeUserCallLog "uid-alice" 0 updates :: trace second
           /\ updates !! "status" = Some (FString "cancelled")
           /\ updates !! "durationSeconds" = Some (FNumber 58))
  /\ (callState (st inbound) = completed
      /\ finals (trace inbound) = []
      /\ activeLogIdRef (st inbound) = Some 0).
Proof.
  vm_compute. split; [done|]. split; [done|]. split; [|done].
  split; [done|]. eexists. split; [reflexivity|]. vm_compute. done.
Qed.

End Sessions.

(** ** Call log finalization *)

Section Finalization.

Variable randomUUID : nat -> string.
Variable outbound : Connection.

Local Abbreviation step := (step randomUUID outbound).
Local Abbreviation run := (run randomUUID outbound).

Lemma durationSeconds_nonneg now startedAt : (0 <= durationSeconds now startedAt)%Z.
Proof.
  unfold durationSeconds. destruct startedAt as [t|]; [|done].
  destruct (t =? 0)%Z; lia.
Qed.

(** Rounding to the nearest second. *)
Lemma durationSeconds_rounds now t :
  (t <> 0)%Z -> (t <= now)%Z ->
  let d := durationSeconds now (Some t) in
  (now - t - 500 < 1000 * d <= now - t + 500)%Z.
Proof.
  intros Ht Hle. simpl. destruct (Z.eqb_spec t 0) as [|_]; [done|].
  rewrite Z.max_l by (apply Z.div_pos; lia).
  pose proof (Z.div_mod (now - t + 500) 1000 ltac:(lia)) as Hdm.
  pose proof (Z.mod_pos_bound (now - t + 500) 1000 ltac:(lia)) as Hb.
  lia.
Qed.

Lemma finalizeActiveLog_callState now status extra w :
  callState (st (finalizeActiveLog now status extra w)) = callState (st w).
Proof. unfold finalizeActiveLog. by destruct (user w), (activeLogIdRef (st w)). Qed.

Lemma finalizeActiveLog_untracked now status extra w :
  activeLogIdRef (st w) = None -> finalizeActiveLog now status extra w = w.
Proof. intros H. unfold finalizeActiveLog. rewrite H. by destruct (user w). Qed.

Lemma finalUpdates_duration status d note extra :
  extra !! "durationSeconds" = None ->
  finalUpdates status d note extra !! "durationSeconds" = Some (FNumber d).
Proof.
  intros Hextra. unfold finalUpdates. rewrite lookup_union_r by done.
  destruct (truthy note).
  - rewrite lookup_insert_ne by done. by rewrite lookup_insert_eq.
  - by rewrite lookup_insert_eq.
Qed.

Lemma finalUpdates_status status d note extra :
  extra !! "status" = None ->
  finalUpdates status d note extra !! "status" = Some (FString (status_string status)).
Proof.
  intros Hextra. unfold finalUpdates. rewrite lookup_union_r by done.
  destruct (truthy note).
  - do 2 (rewrite lookup_insert_ne by done). by rewrite lookup_insert_eq.
  - rewrite lookup_insert_ne by done. by rewrite lookup_insert_eq.
Qed.

Lemma finalUpdates_note status d note extra :
  extra !! "note" = None ->
  finalUpdates status d note extra !! "note"
  = if truthy note then Some (FString note) else None.
Proof.
  intros Hextra. unfold finalUpdates. rewrite lookup_union_r by done.
  destruct (truthy note).
  - by rewrite lookup_insert_eq.
  - by do 2 (rewrite lookup_insert_ne by done).
Qed.

Lemma Inv_initial u : Inv (initialWorld u).
Proof. split; [|split]; simpl; [constructor|constructor|done]. Qed.

Lemma Inv_finalizeActiveLog now status extra w :
  extra !! "durationSeconds" = None ->
  Inv w -> Inv (finalizeActiveLog now status extra w).
Proof.
  intros Hextra (Hnd & Hall & Hact). unfold finalizeActiveLog.
  destruct (user w) as [u|]; [|done].
  destruct (activeLogIdRef (st w)) as [logId|] eqn:Hlog; [|by rewrite <- Hlog in Hact].
  destruct (Hact logId eq_refl) as [Hlt Hfresh].
  split; [|split]; simpl.
  - by constructor.
  - constructor; [|done]. split; [done|]. eexists. split.
    + by apply finalUpdates_duration.
    + apply durationSeconds_nonneg.
  - done.
Qed.

Lemma Inv_assignLogId w : Inv w -> Inv (assignLogId w).
Proof.
  intros (Hnd & Hall & Hact). split; [|split]; simpl.
  - done.
  - eapply Forall_impl; [exact Hall|]. intros f [Hlt Hd]. split; [lia|done].
  - intros logId [= <-]. split; [lia|].
    intros Hin. apply list_elem_of_fmap in Hin as [f [E Hf]].
    rewrite Forall_forall in Hall. destruct (Hall f Hf) as [Hlt _]. lia.
Qed.

(** Reduce a goal on a world built by a chain of assignments to the one
    statement of the chain that touches the log bookkeeping. *)
Ltac log_frame :=
  lazymatch goal with
  | H : Inv ?w0 |- Inv ?W =>
      first
        [ exact H
        | match W with
          | context [finalizeActiveLog ?now ?status ?extra ?w1] =>
              change (Inv (finalizeActiveLog now status extra w1));
              apply Inv_finalizeActiveLog; [done|]
          | context [assignLogId ?w1] =>
              change (Inv (assignLogId w1)); apply Inv_assignLogId
          end ]
  end.

Lemma Inv_runHandler now c ev h w :
  Inv w -> Inv (runHandler randomUUID now c ev h w).
Proof.
  intros H. destruct h; unfold runHandler; repeat case_decide; repeat log_frame.
Qed.

Lemma Inv_emitConn now c ev w : Inv w -> Inv (emitConn randomUUID now c ev w).
Proof.
  unfold emitConn. intros H.
  set (w0 := setListeners _ w). assert (H0 : Inv w0) by exact H.
  clearbody w0. clear H.
  generalize dependent w0.
  induction (List.filter (listens c ev) (listeners w)) as [|l ls IH]; intros w0 H0.
  - exact H0.
  - simpl. apply IH. by apply Inv_runHandler.
Qed.

Lemma Inv_step now i w : Inv w -> Inv (step now i w).
Proof.
  intros H. destruct i; try (by apply Inv_emitConn);
    do 3 unfold_ops; repeat case_match; repeat log_frame.
Qed.

Lemma Inv_run ins w : Inv w -> Inv (run ins w).
Proof.
  revert w. induction ins as [|i ins IH]; intros w H; [done|].
  simpl. apply IH. by apply Inv_step.
Qed.

Lemma user_runHandler now c ev h w : user (runHandler randomUUID now c ev h w) = user w.
Proof.
  destruct h; unfold runHandler, finalizeActiveLog; repeat case_match; done.
Qed.

Lemma user_step now i w : user (step now i w) = user w.
Proof.
  destruct i; do 3 unfold_ops; unfold finalizeActiveLog; repeat case_match; try done.
  unfold emitConn. set (w0 := setListeners _ w).
  change (user w) with (user w0). clearbody w0.
  revert w0. induction (List.filter (listens c ev) (listeners w)) as [|l ls IH];
    intros w0; [done|].
  simpl. rewrite IH. apply user_runHandler.
Qed.

Lemma user_run ins w : user (run ins w) = user w.
Proof.
  revert w. induction ins as [|i ins IH]; intros w; [done|].
  simpl. rewrite IH. apply user_step.
Qed.

Lemma finalizeActiveLog_tracked now status extra u logId w :
  user w = Some u ->
  activeLogIdRef (st w) = Some logId ->
  finalizeActiveLog now status extra w
  = w |> upd (setActiveLogIdRef None)
      |> upd (setActiveCallStartedAtRef None)
      |> upd (setCallNoteRef "")
      |> emit (FinalizeUserCallLog (uid u) logId
                 (finalUpdates status (durationSeconds now (activeCallStartedAtRef (st w)))
                    (trim (callNoteRef (st w))) extra)).
Proof. intros Hu Hlog. unfold finalizeActiveLog. by rewrite Hu, Hlog. Qed.

(** A listener that makes the state terminal finalizes the tracked log in
    the same turn of the event loop. *)
Lemma terminal_listener_finalizes now c ev h u logId w :
  In h terminalListeners ->
  user w = Some u ->
  activeLogIdRef (st w) = Some logId ->
  let w' := runHandler randomUUID now c ev h w in
  (callState (st w') = completed \/ callState (st w') = failed)
  /\ exists updates,
       trace w' = FinalizeUserCallLog (uid u) logId updates :: trace w
       /\ updates !! "durationSeconds"
          = Some (FNumber (durationSeconds now (activeCallStartedAtRef (st w)))).
Proof.
  intros Hh Hu Hlog. simpl in Hh.
  destruct Hh as [<- | [<- | [<- | [<- | []]]]]; unfold runHandler;
    rewrite (finalizeActiveLog_tracked _ _ _ u logId) by done; simpl;
    (split; [auto|]); eexists; (split; [reflexivity|]);
    by apply finalUpdates_duration.
Qed.

(** What [finalizeActiveLog] does keep, in every world the provider can
    reach: while a log id is tracked, that document has not been finalized
    before; finalizing hands over [now - startedAt] rounded to seconds for
    the start time the provider holds, never a negative number, and clears
    the tracked id, so that finalizing again does nothing; no document is
    ever finalized twice.  This is about the tracked id and the start time
    held, which need not be those of the call that ends. *)
Lemma finalizeActiveLog_exactly_once
    ins u now now' status status' extra extra' logId :
  let w := run ins (initialWorld (Some u)) in
  activeLogIdRef (st w) = Some logId ->
  extra !! "durationSeconds" = None ->
  let startedAt := activeCallStartedAtRef (st w) in
  let d := durationSeconds now startedAt in
  let w1 := finalizeActiveLog now status extra w in
  let w2 := finalizeActiveLog now' status' extra' w1 in
  (logId ∉ (finals (trace w)).*1)
  /\ (exists updates,
        trace w1 = FinalizeUserCallLog (uid u) logId updates :: trace w
        /\ updates !! "durationSeconds" = Some (FNumber d))
  /\ (0 <= d)%Z
  /\ (startedAt = None -> d = 0%Z)
  /\ (forall t, startedAt = Some t -> t <> 0%Z -> (t <= now)%Z ->
        (now - t - 500 < 1000 * d <= now - t + 500)%Z)
  /\ activeLogIdRef (st w1) = None
  /\ w2 = w1
  /\ NoDup (finals (trace w2)).*1
  /\ (forall c ev h, In h terminalListeners ->
        let w' := runHandler randomUUID now c ev h w in
        (callState (st w') = completed \/ callState (st w') = failed)
        /\ exists updates,
             trace w' = FinalizeUserCallLog (uid u) logId updates :: trace w
             /\ updates !! "durationSeconds" = Some (FNumber d)).
Proof.
  intros w Hlog Hextra startedAt d w1 w2.
  assert (Hinv : Inv w) by (apply Inv_run, Inv_initial).
  assert (Hu : user w = Some u) by apply user_run.
  assert (E1 : w1 = w |> upd (setActiveLogIdRef None)
                      |> upd (setActiveCallStartedAtRef None)
                      |> upd (setCallNoteRef "")
                      |> emit (FinalizeUserCallLog (uid u) logId
                                 (finalUpdates status d (trim (callNoteRef (st w))) extra))).
  { by apply finalizeActiveLog_tracked. }
  assert (E2 : w2 = w1).
  { unfold w2. apply finalizeActiveLog_untracked. by rewrite E1. }
  split; [by apply Hinv|].
  split; [eexists; split; [by rewrite E1|by apply finalUpdates_duration]|].
  split; [apply durationSeconds_nonneg|].
  split; [by intros Hs; unfold d; rewrite Hs|].
  split; [intros t Hs Ht Hle; unfold d; rewrite Hs; by apply durationSeconds_rounds|].
  split; [by rewrite E1|].
  split; [done|].
  split; [rewrite E2; by apply (Inv_finalizeActiveLog now status extra w Hextra Hinv)|].
  intros c ev h Hh. by apply terminal_listener_finalizes.
Qed.

End Finalization.

(** ** The feed in every reachable world *)

Section FeedInvariant.

Variable randomUUID : nat -> string.
Variable outbound : Connection.

Local Abbreviation step := (step randomUUID outbound).
Local Abbreviation run := (run randomUUID outbound).

Ltac feed_arith :=
  unfold feedOk, MAX_EVENT_ENTRIES, pushEntry in *; simpl; rewrite ?length_take; lia.

Lemma feedOk_runHandler now c ev h w :
  feedOk w -> feedOk (runHandler randomUUID now c ev h w).
Proof.
  intros H. destruct h; unfold runHandler, finalizeActiveLog;
    repeat case_match; feed_arith.
Qed.

Lemma feedOk_emitConn now c ev w : feedOk w -> feedOk (emitConn randomUUID now c ev w).
Proof.
  unfold emitConn. intros H.
  set (w0 := setListeners _ w). assert (H0 : feedOk w0) by exact H.
  clearbody w0. clear H. revert w0 H0.
  induction (List.filter (listens c ev) (listeners w)) as [|l ls IH]; intros w0 H0.
  - exact H0.
  - simpl. by apply IH, feedOk_runHandler.
Qed.

Lemma feedOk_step now i w : feedOk w -> feedOk (step now i w).
Proof.
  intros H. destruct i; try (by apply feedOk_emitConn);
    do 3 unfold_ops; unfold finalizeActiveLog; repeat case_match; feed_arith.
Qed.

Lemma feedOk_run ins w : feedOk w -> feedOk (run ins w).
Proof.
  revert w. induction ins as [|i ins IH]; intros w H; [done|].
  simpl. by apply IH, feedOk_step.
Qed.

(** C7. In every world the provider can reach the feed holds at most 100
    entries.  [pushEvent] puts the new entry at the head; when the feed
    holds 100 entries the last (oldest) one is dropped, otherwise none is;
    the entries that remain keep their order. *)
Theorem event_feed_capped ins u now msg :
  let w := run ins (initialWorld u) in
  let prev := events (st w) in
  let feed := events (st (pushEvent randomUUID now msg w)) in
  length prev <= 100
  /\ length feed <= 100
  /\ feed = mkEvent (randomUUID (pushes w)) now msg
            :: (if decide (length prev = 100) then removelast prev else prev)
  /\ (forall i, S i < 100 -> feed !! S i = prev !! i).
Proof.
  intros w prev feed.
  assert (H : feedOk w).
  { apply feedOk_run. unfold feedOk. simpl. lia. }
  split; [exact H|]. by apply pushEvent_feed.
Qed.

End FeedInvariant.

(** ** Placing and ending a call *)

Section Calls.

Variable randomUUID : nat -> string.
Variable outbound : Connection.

Local Abbreviation step := (step randomUUID outbound).


Lemma callView_clearDevice w : callView (st (clearDevice w)) = callView (st w).
Proof.
  unfold clearDevice. destruct (deviceRef (st w)); simpl;
    by destruct (tokenRefreshTimerRef (st w)).
Qed.



Lemma listens_same c ev h : listens c ev (c, h) = handler_event h ev.
Proof. unfold listens. simpl. by rewrite decide_True. Qed.

Lemma listeners_fresh c ev (ls : list (nat * Handler)) :
  Forall (fun l => l.1 <> c) ls ->
  List.filter (listens c ev) ls = []
  /\ List.filter (fun l => negb (listens c ev l)) ls = ls.
Proof.
  induction 1 as [|l ls Hl _ [IH1 IH2]]; [done|].
  assert (E : listens c ev l = false).
  { unfold listens. by rewrite decide_False. }
  cbn [List.filter]. rewrite E. cbn [negb]. by rewrite IH1, IH2.
Qed.

(** The listeners of connection [c] for [ev], and the ones that stay, when
    [c] was attached to after everything in [ls]. *)
Lemma listeners_split c ev (ls : list (nat * Handler)) hs :
  Forall (fun l => l.1 <> c) ls ->
  List.filter (listens c ev) (ls ++ map (pair c) hs)%list
  = map (pair c) (List.filter (fun h => handler_event h ev) hs)
  /\ List.filter (fun l => negb (listens c ev l)) (ls ++ map (pair c) hs)%list
     = (ls ++ map (pair c) (List.filter (fun h => negb (handler_event h ev)) hs))%list.
Proof.
  intros Hls. destruct (listeners_fresh c ev ls Hls) as [E1 E2].
  rewrite !List.filter_app, E1, E2. cbn [app].
  split; [|f_equal]; induction hs as [|h hs IH]; [done| |done|];
    cbn [map List.filter]; rewrite listens_same;
    destruct (handler_event h ev); cbn [negb map]; by rewrite IH.
Qed.

(** C5, as the code has it.  On a ready device [makeCall] moves the call
    state to [connecting]; the SDK's ringing notification makes it
    [ringing] and the connect notification [active].  [hangUp()] then
    disconnects, finalizes the call's log with status [completed] and the
    duration since the connect, and leaves the call state [idle].  The
    state is [completed] once the SDK delivers the disconnect notification
    of the connection, which finalizes nothing further. *)
Theorem makeCall_then_hangUp
    now1 now2 now3 now4 now5 now6 destination u d (w : World) :
  user w = Some u ->
  deviceRef (st w) = Some d ->
  isClientReady (st w) = true ->
  is_Some (devices w !! d) ->
  truthy (trim destination) = true ->
  Forall (fun l => l.1 <> nextConn w) (listeners w) ->
  let t := nextTask w in
  let c := nextConn w in
  let w1 := step now1 (MakeCall destination) w in
  let w2 := step now2 (Settle t CreateLogOk) w1 in
  let w3 := step now3 (ConnEvent c ev_ringing) w2 in
  let w4 := step now4 (DeviceEvent d (dev_connect c)) w3 in
  let w5 := step now5 HangUp w4 in
  let w6 := step now6 (ConnEvent c ev_disconnect) w5 in
  callState (st w1) = connecting
  /\ callState (st w2) = connecting
  /\ result w2 t = Some (Resolved (VBool true))
  /\ callState (st w3) = ringing
  /\ callState (st w4) = active
  /\ callState (st w5) = idle
  /\ isMuted (st w5) = false /\ isOnHold (st w5) = false
  /\ (exists updates,
        trace w5 = FinalizeUserCallLog (uid u) (nextLogId w) updates
                   :: DisconnectAll d :: ConnDisconnect c :: trace w4
        /\ updates !! "status" = Some (FString "completed")
        /\ updates !! "durationSeconds"
           = Some (FNumber (durationSeconds now5 (Some now4))))
  /\ callState (st w6) = completed
  /\ trace w6 = trace w5.
Proof.
  intros Hu Hd Hready [seen Hdev] Hdest Hfresh t c w1 w2 w3 w4 w5 w6.
  set (nd := normalised (trim destination)).
  (* makeCall, up to the creation of the log *)
  assert (E1 : w1 = makeCall_initialised t u d (trim destination) (setNextTask (S t) w)).
  { unfold w1, step, called, makeCall.
    change (user (setNextTask (S (nextTask w)) w)) with (user w).
    rewrite Hu, Hdest. cbn [negb]. unfold initializeClient.
    change (user (setNextTask (S (nextTask w)) w)) with (user w).
    change (st (setNextTask (S (nextTask w)) w)) with (st w).
    by rewrite Hu, Hd, Hready. }
  assert (Ht1 : tasks w1 !! t = Some (AwaitCreateLog u d nd)).
  { rewrite E1. apply lookup_insert_eq. }
  (* the log is created, the connection requested *)
  assert (E2 : w2 = makeCall_connect randomUUID outbound now2 t true d nd w1).
  { unfold w2, step, resume. by rewrite Ht1. }
  assert (L2 : listeners w2
               = (listeners w
                  ++ map (pair c) [OnOutRinging; OnOutCancel; OnOutReject; OnOutError])%list).
  { rewrite E2, E1. unfold makeCall_connect, attachOnce. simpl.
    by rewrite <- !app_assoc. }
  assert (K2 : conns w2 !! c = Some outbound).
  { rewrite E2, E1. unfold makeCall_connect. simpl. apply lookup_insert_eq. }
  (* ringing *)
  destruct (listeners_split c ev_ringing (listeners w)
              [OnOutRinging; OnOutCancel; OnOutReject; OnOutError] Hfresh) as [F3 G3].
  assert (E3 : w3 = runHandler randomUUID now3 c ev_ringing OnOutRinging
                      (setListeners
                         (listeners w ++ map (pair c) [OnOutCancel; OnOutReject; OnOutError])
                         w2)).
  { unfold w3, step, emitConn. by rewrite L2, F3, G3. }
  (* connect *)
  assert (E4 : w4 =
    w3 |> upd (setActiveConnectionRef (Some c))
       |> upd (setCallState active)
       |> upd (setIsMuted (nullish (sdkMuted outbound) false))
       |> upd (setIsOnHold (nullish (sdkOnHold outbound) false))
       |> upd (setLastError None)
       |> upd (setIncomingNumber None)
       |> upd (setActiveCallStartedAtRef (Some now4))
       |> upd (setActiveNumber (match To outbound with Some x => Some x | None => seen end))
       |> pushEvent randomUUID now4
            ("Call connected with "
             +:+ nullish (match To outbound with Some x => Some x | None => seen end)
                   "unknown destination")
       |> attachOnce c OnConnectDisconnect
       |> attachOnce c OnConnectError).
  { unfold w4, step, emitDevice.
    assert (devices w3 !! d = Some seen) as ->.
    { rewrite E3, E2, E1. exact Hdev. }
    assert (conns w3 !! c = Some outbound) as ->.
    { rewrite E3. exact K2. }
    done. }
  (* hangUp *)
  assert (A4 : activeConnectionRef (st w4) = Some c) by (by rewrite E4).
  assert (D4 : deviceRef (st w4) = Some d) by (by rewrite E4, E3, E2, E1).
  assert (U4 : user w4 = Some u) by (by rewrite E4, E3, E2, E1).
  assert (I4 : activeLogIdRef (st w4) = Some (nextLogId w)) by (by rewrite E4, E3, E2, E1).
  assert (S4 : activeCallStartedAtRef (st w4) = Some now4) by (by rewrite E4).
  assert (E5 : w5 =
    w4 |> emit (ConnDisconnect c) |> emit (DisconnectAll d)
       |> upd (setActiveLogIdRef None)
       |> upd (setActiveCallStartedAtRef None)
       |> upd (setCallNoteRef "")
       |> emit (FinalizeUserCallLog (uid u) (nextLogId w)
                  (finalUpdates LogCompleted (durationSeconds now5 (Some now4))
                     (trim (callNoteRef (st w4))) ∅))
       |> upd (setCallState idle)
       |> upd (setIsMuted false)
       |> upd (setIsOnHold false)
       |> upd (setActiveNumber None)
       |> upd (setIncomingNumber None)
       |> upd (setCallNoteRef "")).
  { unfold w5, step, hangUp. rewrite A4. cbn [st emit]. rewrite D4.
    unfold finalizeActiveLog. cbn [user st emit]. by rewrite U4, I4, S4. }
  (* the disconnect notification *)
  assert (L5 : listeners w5
               = (listeners w
                  ++ map (pair c) [OnOutCancel; OnOutReject; OnOutError;
                                   OnConnectDisconnect; OnConnectError])%list).
  { rewrite E5, E4, E3. unfold attachOnce. simpl. by rewrite <- !app_assoc. }
  destruct (listeners_split c ev_disconnect (listeners w)
              [OnOutCancel; OnOutReject; OnOutError; OnConnectDisconnect; OnConnectError]
              Hfresh) as [F6 G6].
  assert (E6 : w6 = runHandler randomUUID now6 c ev_disconnect OnConnectDisconnect
                      (setListeners
                         (listeners w
                          ++ map (pair c) [OnOutCancel; OnOutReject; OnOutError; OnConnectError])
                         w5)).
  { unfold w6, step, emitConn. by rewrite L5, F6, G6. }
  split; [by rewrite E1|].
  split; [by rewrite E2, E1|].
  split; [rewrite E2; apply result_settle|].
  split; [by rewrite E3|].
  split; [by rewrite E4|].
  split; [by rewrite E5|].
  split; [by rewrite E5|].
  split; [by rewrite E5|].
  split.
  { eexists. split; [by rewrite E5|].
    split; [by apply finalUpdates_status|by apply finalUpdates_duration]. }
  rewrite E6. unfold runHandler.
  split; [by rewrite finalizeActiveLog_callState|].
  rewrite finalizeActiveLog_untracked; [done|by rewrite E5].
Qed.

End Calls.

(** ** Which notifications look at the tracked call *)

Section CallIdentity.

Variable randomUUID : nat -> string.

Local Abbreviation runHandler := (runHandler randomUUID).

Lemma finalizeActiveLog_tracking now status extra w :
  tracking (st (finalizeActiveLog now status extra w)) = tracking (st w).
Proof. unfold finalizeActiveLog. by destruct (user w), (activeLogIdRef (st w)). Qed.

(** The cancel and reject listeners of an incoming call compare the
    connection with [incomingConnectionRef]: for another connection they
    only write to the feed. *)
Lemma incoming_listeners_guarded now c ev h (w : World) :
  h = OnIncomingCancel \/ h = OnIncomingReject ->
  incomingConnectionRef (st w) <> Some c ->
  tracking (st (runHandler now c ev h w)) = tracking (st w)
  /\ incomingNumber (st (runHandler now c ev h w)) = incomingNumber (st w)
  /\ trace (runHandler now c ev h w) = trace w.
Proof.
  intros [-> | ->] Hother; unfold runHandler; simpl;
    by rewrite decide_False.
Qed.

(** The disconnect listener makes no such comparison: whatever connection
    is tracked, the reference is dropped and the state is [completed], with
    both flags reset. *)
Lemma disconnect_listener_unguarded now c ev (w : World) :
  let w' := runHandler now c ev OnConnectDisconnect w in
  tracking (st w') = (completed, false, false, None, incomingConnectionRef (st w)).
Proof. simpl. unfold runHandler. by rewrite finalizeActiveLog_tracking. Qed.

(** The listeners that make an outbound call [failed] leave both flags as
    they are. *)
Lemma failed_listeners_keep_flags now c ev h (w : World) :
  h = OnOutCancel \/ h = OnOutReject \/ h = OnOutError ->
  let w' := runHandler now c ev h w in
  tracking (st w')
  = (failed, isMuted (st w), isOnHold (st w),
     activeConnectionRef (st w), incomingConnectionRef (st w)).
Proof.
  intros [-> | [-> | ->]]; simpl; unfold runHandler;
    by rewrite finalizeActiveLog_tracking.
Qed.

End CallIdentity.

(** ** The statements at concrete sessions *)

Section Witnesses.

Import Scenario.

Lemma event_feed_capped_witness :
  let prev := events (st fullFeed) in
  let feed := events (st (pushEvent uuid 2000 "Call ringing" fullFeed)) in
  length prev = 100
  /\ length feed <= 100
  /\ feed = mkEvent (uuid (pushes fullFeed)) 2000 "Call ringing"
            :: (if decide (length prev = 100) then removelast prev else prev)
  /\ feed !! 99 = prev !! 98.
Proof.
  intros prev feed.
  destruct (event_feed_capped uuid plain (repeat (1000%Z, FinalizeRejected) 100)
              (Some alice) 2000 "Call ringing") as (_ & Hlen & Hfeed & Hrest).
  split; [vm_compute; reflexivity|]. split; [exact Hlen|]. split; [exact Hfeed|].
  apply Hrest. lia.
Defined.

Lemma finalizeUserCallLog_note_endedAt_witness :
  (exists payload,
     finalizeUserCallLog true "uid-alice" 0 {["note" := FString "  call back  "]}
     = inr (UpdateDoc "uid-alice" 0 payload)
     /\ payload !! "note" = Some (FString "call back")
     /\ payload !! "endedAt" = Some FServerTimestamp)
  /\ (exists payload,
     finalizeUserCallLog true "uid-alice" 0 {["note" := FString "   "]}
     = inr (UpdateDoc "uid-alice" 0 payload)
     /\ payload !! "note" = Some FDeleteField
     /\ applyUpdate 9000 payload {["note" := FString "old"]} !! "note" = None).
Proof.
  split.
  - destruct (finalizeUserCallLog_note_endedAt "uid-alice" 0
                {["note" := FString "  call back  "]})
      as (payload & E & Hend & Hnote & _).
    exists payload. split; [exact E|]. split; [exact Hnote|exact Hend].
  - destruct (finalizeUserCallLog_note_endedAt "uid-alice" 0
                {["note" := FString "   "]})
      as (payload & E & _ & Hnote & _ & _ & _ & Hdoc).
    exists payload. split; [exact E|]. split; [exact Hnote|].
    exact (proj2 (Hdoc 9000%Z {["note" := FString "old"]})).
Defined.




Lemma finalizeActiveLog_exactly_once_witness :
  let w := connected plain in
  let w1 := finalizeActiveLog 7300 LogCompleted ∅ w in
  activeLogIdRef (st w) = Some 0
  /\ (∅ : gmap string FieldValue) !! "durationSeconds" = None
  /\ (exists updates,
        trace w1 = FinalizeUserCallLog "uid-alice" 0 updates :: trace w
        /\ updates !! "durationSeconds" = Some (FNumber 5))
  /\ finalizeActiveLog 7400 LogFailed (statusReason "late") w1 = w1.
Proof.
  intros w w1.
  assert (Hlog : activeLogIdRef (st (run uuid plain toConnected (initialWorld (Some alice))))
                 = Some 0) by (vm_compute; reflexivity).
  assert (Hextra : (∅ : gmap string FieldValue) !! "durationSeconds" = None)
    by (vm_compute; reflexivity).
  destruct (finalizeActiveLog_exactly_once uuid plain toConnected alice
              7300 7400 LogCompleted LogFailed ∅ (statusReason "late") 0 Hlog Hextra)
    as (_ & Hfin & _ & _ & _ & _ & Hsecond & _).
  split; [exact Hlog|]. split; [exact Hextra|]. split; [exact Hfin|exact Hsecond].
Defined.

Lemma makeCall_then_hangUp_witness :
  let w := registered plain in
  let w1 := step uuid plain 2000 (MakeCall "+12025550123") w in
  let w2 := step uuid plain 2100 (Settle (nextTask w) CreateLogOk) w1 in
  let w3 := step uuid plain 2200 (ConnEvent (nextConn w) ev_ringing) w2 in
  let w4 := step uuid plain 2300 (DeviceEvent 0 (dev_connect (nextConn w))) w3 in
  let w5 := step uuid plain 9000 HangUp w4 in
  user w = Some alice
  /\ deviceRef (st w) = Some 0
  /\ isClientReady (st w) = true
  /\ is_Some (devices w !! 0)
  /\ truthy (trim "+12025550123") = true
  /\ Forall (fun l => l.1 <> nextConn w) (listeners w)
  /\ callState (st w4) = active
  /\ callState (st w5) = idle
  /\ exists updates,
       trace w5 = FinalizeUserCallLog (uid alice) (nextLogId w) updates
                  :: DisconnectAll 0 :: ConnDisconnect (nextConn w) :: trace w4
       /\ updates !! "status" = Some (FString "completed").
Proof.
  intros w w1 w2 w3 w4 w5.
  assert (Hu : user w = Some alice) by (vm_compute; reflexivity).
  assert (Hd : deviceRef (st w) = Some 0) by (vm_compute; reflexivity).
  assert (Hr : isClientReady (st w) = true) by (vm_compute; reflexivity).
  assert (Hl : is_Some (devices w !! 0)) by (eexists; vm_compute; reflexivity).
  assert (Ht : truthy (trim "+12025550123") = true) by (vm_compute; reflexivity).
  assert (Hf : Forall (fun l => l.1 <> nextConn w) (listeners w)).
  { assert (listeners w = []) as -> by (vm_compute; reflexivity). constructor. }
  destruct (makeCall_then_hangUp uuid plain 2000 2100 2200 2300 9000 9100
              "+12025550123" alice 0 w Hu Hd Hr Hl Ht Hf)
    as (_ & _ & _ & _ & Hactive & Hidle & _ & _ & (updates & Htrace & Hstatus & _) & _).
  split; [exact Hu|]. split; [exact Hd|]. split; [exact Hr|]. split; [exact Hl|].
  split; [exact Ht|]. split; [exact Hf|]. split; [exact Hactive|]. split; [exact Hidle|].
  exists updates. split; [exact Htrace|exact Hstatus].
Defined.

End Witnesses.

(** * Further properties of the code *)

(** ** Identities and phone numbers *)

Section Normalisation.

Implicit Types (s v : string) (c : ascii).

Lemma identity_char_not_ws c : identity_char c = true -> is_ws c = false.
Proof. destruct c as [[] [] [] [] [] [] [] []]; vm_compute; done. Qed.

Lemma trimEnd_no_ws s : forall_chars (fun c => negb (is_ws c)) s = true -> trimEnd s = s.
Proof.
  induction s as [|c r IH]; simpl; [done|].
  intros [Hc Hr]%andb_prop. rewrite (IH Hr).
  destruct r; [|done]. by destruct (is_ws c).
Qed.

Lemma trim_no_ws s : forall_chars (fun c => negb (is_ws c)) s = true -> trim s = s.
Proof.
  intros H. unfold trim. rewrite trimStart_fixed.
  - by apply trimEnd_no_ws.
  - destruct s as [|c r]; simpl in *; [done|].
    intros c' [= <-]. apply andb_prop in H as [Hc _]. by destruct (is_ws c).
Qed.

Lemma forall_chars_impl (p q : ascii -> bool) s :
  (forall c, p c = true -> q c = true) ->
  forall_chars p s = true -> forall_chars q s = true.
Proof.
  intros Hpq. induction s as [|c r IH]; simpl; [done|].
  intros [Hc Hr]%andb_prop. by rewrite (Hpq c Hc), (IH Hr).
Qed.

Lemma replace_chars_forall p by_ s :
  p by_ = true -> forall_chars p (replace_chars p by_ s) = true.
Proof.
  intros Hby. induction s as [|c r IH]; simpl; [done|].
  rewrite IH. by destruct (p c) eqn:Hc; rewrite ?Hc, ?Hby.
Qed.


Lemma replace_chars_length p by_ s :
  String.length (replace_chars p by_ s) = String.length s.
Proof. induction s as [|c r IH]; simpl; [done|]. by rewrite IH. Qed.

Lemma identity_trim s : forall_chars identity_char s = true -> trim s = s.
Proof.
  intros H. apply trim_no_ws. revert H. apply forall_chars_impl.
  intros c Hc. by rewrite (identity_char_not_ws c Hc).
Qed.


(** [normalisePhoneNumber]: a result starts with [+], consists of digits
    and [+] only, and is a fixed point; there is no result exactly when the
    value holds neither a digit nor a [+]. *)
Theorem normalisePhoneNumber_shape value :
  (forall n, normalisePhoneNumber value = Some n ->
     startsWith "+"%char n = true
     /\ forall_chars phone_char n = true
     /\ normalisePhoneNumber (Some n) = Some n)
  /\ (normalisePhoneNumber value = None <->
      match value with Some v => keep_chars phone_char v = "" | None => True end).
Proof.
  assert (Hfix : forall n, startsWith "+"%char n = true -> forall_chars phone_char n = true ->
                           normalisePhoneNumber (Some n) = Some n).
  { intros n Hs Hn. unfold normalisePhoneNumber.
    rewrite (keep_chars_id _ _ Hn), Hs. by destruct n. }
  unfold normalisePhoneNumber at 1 3. destruct value as [v|]; [|done].
  pose proof (keep_chars_forall phone_char v) as Hk.
  destruct (truthy v) eqn:Hv; simpl.
  - destruct (keep_chars phone_char v) as [|c r] eqn:Hd; simpl; [done|].
    destruct (decide ("+"%char = c)) as [<-|Hc]; simpl.
    + split; [|done]. intros n [= <-]. split; [done|]. split; [done|]. by apply Hfix.
    + split; [|done]. intros n [= <-]. split; [done|]. split; [exact Hk|].
      by apply Hfix.
  - destruct v; [|done]. done.
Qed.

End Normalisation.

Section IdentityRoundTrip.

Import VoiceServer.

Lemma sanitizeIdentity_chars value fallback :
  forall_chars identity_char fallback = true ->
  forall_chars identity_char (sanitizeIdentity value fallback) = true.
Proof.
  intros Hfb. unfold sanitizeIdentity. destruct value as [v|]; [|done].
  destruct (truthy v); simpl; [|done].
  destruct (truthy (trim v)); simpl; [|done].
  by apply replace_chars_forall.
Qed.

Lemma sanitizeIdentity_truthy value fallback :
  truthy fallback = true -> truthy (sanitizeIdentity value fallback) = true.
Proof.
  intros Hfb. unfold sanitizeIdentity. destruct value as [v|]; [|done].
  destruct (truthy v); simpl; [|done].
  destruct (truthy (trim v)) eqn:Ht; simpl; [|done].
  by rewrite truthy_length, replace_chars_length, <- truthy_length.
Qed.

(** The identity that [initializeClient] asks a token for is the identity
    the token endpoint mints it for: the endpoint's own trimming and
    default do not change a sanitized identity. *)
Theorem token_minted_for_requested_identity value fallback defaultIdentity :
  forall_chars identity_char fallback = true ->
  truthy fallback = true ->
  let identity := sanitizeIdentity value fallback in
  tokenIdentity (Some identity) defaultIdentity = identity.
Proof.
  intros Hfb Hne identity. subst identity. unfold tokenIdentity.
  rewrite identity_trim by (by apply sanitizeIdentity_chars).
  rewrite <- truthy_length. by rewrite (sanitizeIdentity_truthy value fallback Hne).
Qed.

End IdentityRoundTrip.

(** ** The voice webhook *)

Section VoiceWebhook.

Import VoiceServer.

Lemma isE164_shape v :
  isE164 v = true ->
  exists d rest,
    (v = String d rest \/ v = String "+" (String d rest))
    /\ between 49 57 d = true
    /\ forall_chars is_digit rest = true
    /\ 6 <= String.length rest <= 14.
Proof.
  unfold isE164. intros H.
  assert (Hshape : forall x, match x with
                             | String d rest =>
                                 between 49 57 d && forall_chars is_digit rest
                                 && (6 <=? String.length rest)%nat
                                 && (String.length rest <=? 14)%nat
                             | EmptyString => false
                             end = true ->
                    exists d rest, x = String d rest /\ between 49 57 d = true
                      /\ forall_chars is_digit rest = true
                      /\ 6 <= String.length rest <= 14).
  { intros [|d rest]; [done|]. intros Hx.
    apply andb_prop in Hx as [Hx H4]. apply andb_prop in Hx as [Hx H3].
    apply andb_prop in Hx as [H1 H2].
    apply Nat.leb_le in H3, H4. by exists d, rest. }
  destruct v as [|c r]; [done|].
  unfold is_char in H. destruct (decide (first_char "+" = Some c)) as [E|_].
  - injection E as <-. destruct (Hshape r H) as (d & rest & -> & Hd).
    exists d, rest. split; [by right|done].
  - destruct (Hshape (String c r) H) as (d & rest & E & Hd).
    exists d, rest. split; [by left|done].
Qed.

Lemma digit_not_plus d : between 49 57 d = true -> startsWith "+"%char (String d "") = false.
Proof. destruct d as [[] [] [] [] [] [] [] []]; vm_compute; done. Qed.

Lemma prefix_ci_app p pre name :
  String.length pre = String.length p ->
  prefix_ci p pre = true ->
  prefix_ci p (pre +:+ name) = true
  /\ drop_chars (String.length p) (pre +:+ name) = name.
Proof.
  revert pre. induction p as [|a p IH]; intros [|b pre] Hlen Hp; simpl in *; try done.
  apply andb_prop in Hp as [Ha Hp]. injection Hlen as Hlen.
  destruct (IH pre Hlen Hp) as [H1 H2].
  change (String b pre +:+ name) with (String b (pre +:+ name)). simpl.
  by rewrite Ha, H1, H2.
Qed.

Lemma stripClient_prefix pre name :
  String.length pre = 7 -> prefix_ci "client:" pre = true ->
  stripClient (pre +:+ name) = name.
Proof.
  intros Hlen Hp. unfold stripClient.
  destruct (prefix_ci_app "client:" pre name Hlen Hp) as [-> H2]. exact H2.
Qed.

Lemma append_empty pre name : pre +:+ name = "" -> pre = "".
Proof. by destruct pre. Qed.

(** The voice webhook dials a phone number only for a trimmed [To] that is
    a [+]-optional run of 7 to 15 digits not starting with 0, and the
    number it dials always carries the [+].  Every other non-blank [To] is
    dialled as a client: as what follows [client:] (in any case) when it
    starts so, as it is otherwise, and as the default client when nothing
    follows [client:]; a blank or missing [To] is dialled as the default
    client.  A client identity is never empty when the default is not. *)
Theorem voiceTarget_routing To defaultIdentity :
  match voiceTarget To defaultIdentity with
  | DialNumber number =>
      exists s d rest,
        To = Some s
        /\ number = String "+" (String d rest)
        /\ (trim s = number \/ trim s = String d rest)
        /\ between 49 57 d = true
        /\ forall_chars is_digit rest = true
        /\ 6 <= String.length rest <= 14
  | DialClient identity =>
      (truthy defaultIdentity = true -> truthy identity = true)
      /\ (match To with
          | Some s =>
              (trim s = "" -> identity = defaultIdentity)
              /\ (forall pre name,
                    trim s = pre +:+ name ->
                    String.length pre = 7 -> prefix_ci "client:" pre = true ->
                    identity = if truthy name then name else defaultIdentity)
              /\ (trim s <> "" -> prefix_ci "client:" (trim s) = false ->
                  identity = trim s)
          | None => identity = defaultIdentity
          end)
      /\ (forall s, To = Some s -> isE164 (trim s) = false \/ String.prefix "client:" (trim s) = true)
  end.
Proof.
  unfold voiceTarget. destruct To as [s|]; [|by split; [|split]].
  set (to := trim s).
  assert (Hclient : truthy defaultIdentity = true ->
            truthy (if truthy (stripClient to) then stripClient to else defaultIdentity) = true).
  { intros Hd. by destruct (truthy (stripClient to)) eqn:Hc. }
  assert (Hnamed : forall pre name,
            to = pre +:+ name -> String.length pre = 7 -> prefix_ci "client:" pre = true ->
            (if truthy (stripClient to) then stripClient to else defaultIdentity)
            = if truthy name then name else defaultIdentity).
  { intros pre name E Hlen Hp. by rewrite E, (stripClient_prefix pre name Hlen Hp). }
  assert (Hplain : to <> "" -> prefix_ci "client:" to = false ->
            (if truthy (stripClient to) then stripClient to else defaultIdentity) = to).
  { intros Hne Hp. unfold stripClient. rewrite Hp. by destruct to. }
  destruct (truthy to) eqn:Ht; cbn [andb negb].
  - destruct (String.prefix "client:" to) eqn:Hp; cbn [andb negb].
    + split; [exact Hclient|]. split.
      * split; [intros E; by rewrite E in Ht|]. split; [exact Hnamed|exact Hplain].
      * intros s' [= <-]. by right.
    + destruct (isE164 to) eqn:He.
      * destruct (isE164_shape to He) as (d & rest & [E|E] & Hd & Hrest & Hlen);
          exists s, d, rest; rewrite E.
        -- assert (Hs : startsWith "+"%char (String d rest) = false).
           { pose proof (digit_not_plus d Hd) as Hn. by destruct rest. }
           rewrite Hs. split; [done|]. split; [done|]. split; [by right|done].
        -- split; [done|]. split; [done|]. split; [by left|done].
      * split; [exact Hclient|]. split.
        -- split; [intros E; by rewrite E in Ht|]. split; [exact Hnamed|exact Hplain].
        -- intros s' [= <-]. by left.
  - assert (E : to = "") by (by destruct to).
    split; [done|]. split.
    + split; [done|]. split.
      * intros pre name Eto Hlen _. rewrite E in Eto. symmetry in Eto.
        apply append_empty in Eto. by rewrite Eto in Hlen.
      * intros Hne. by rewrite E in Hne.
    + intros s' [= <-]. left. fold to. by rewrite E.
Qed.

End VoiceWebhook.

(** ** The call log page *)

Section LogPage.

Import CallLogsPage.

Lemma toLower_idempotent c : toLower (toLower c) = toLower c.
Proof. destruct c as [[] [] [] [] [] [] [] []]; vm_compute; done. Qed.

Lemma toLowerCase_idempotent s : toLowerCase (toLowerCase s) = toLowerCase s.
Proof.
  induction s as [|c r IH]; simpl; [done|]. by rewrite toLower_idempotent, IH.
Qed.

(** [normalizeStatus] gives every status a name that it maps to itself and
    that is not empty; the statuses that the provider writes when it
    creates or finalizes a log keep their name. *)
Theorem normalizeStatus_stable status :
  normalizeStatus (Some (normalizeStatus status)) = normalizeStatus status
  /\ normalizeStatus status <> ""
  /\ (forall s : LogStatus, normalizeStatus (Some (status_string s)) = status_string s)
  /\ normalizeStatus (Some "connecting") = "connecting"
  /\ normalizeStatus (Some "active") = "active".
Proof.
  split; [|split; [|split; [by intros []|done]]].
  - unfold normalizeStatus at 2 3.
    set (value := match status with Some s => toLowerCase s | None => "" end).
    assert (Hv : toLowerCase value = value).
    { subst value. destruct status; [apply toLowerCase_idempotent|done]. }
    destruct (includes ["cancelled"; "canceled"] value) eqn:H1; [done|].
    destruct (includes ["failed"; "error"; "busy"] value) eqn:H2; [done|].
    destruct (includes ["completed"; "complete"; "ended"] value) eqn:H3; [done|].
    destruct (truthy value) eqn:H4; [|done].
    unfold normalizeStatus. by rewrite Hv, H1, H2, H3, H4.
  - unfold normalizeStatus.
    set (value := match status with Some s => toLowerCase s | None => "" end).
    destruct (includes ["cancelled"; "canceled"] value); [done|].
    destruct (includes ["failed"; "error"; "busy"] value); [done|].
    destruct (includes ["completed"; "complete"; "ended"] value); [done|].
    destruct (truthy value) eqn:H4; [|done]. intros E. by rewrite E in H4.
Qed.

Lemma digitValue_digit n : (n < 10)%N -> digitValue (digit n) = n.
Proof.
  intros H. unfold digitValue, digit.
  rewrite N_ascii_embedding by lia. lia.
Qed.

Lemma readClock_pad2 m s :
  (m < 100)%N -> (s < 100)%N ->
  readClock (pad2 m +:+ ":" +:+ pad2 s) = Some (m * 60 + s)%N.
Proof.
  intros Hm Hs. cbv [pad2 String.append readClock].
  assert (Hm1 : (m / 10 < 10)%N) by (apply N.Div0.div_lt_upper_bound; lia).
  assert (Hs1 : (s / 10 < 10)%N) by (apply N.Div0.div_lt_upper_bound; lia).
  assert (Hm2 : (m mod 10 < 10)%N) by (apply N.mod_lt; lia).
  assert (Hs2 : (s mod 10 < 10)%N) by (apply N.mod_lt; lia).
  rewrite !digitValue_digit by assumption.
  pose proof (N.div_mod m 10). pose proof (N.div_mod s 10).
  f_equal. lia.
Qed.

Lemma clock_before_extendedYear d :
  (d < extendedYear)%N ->
  clock d = Some (pad2 (d / 60 mod 60) +:+ ":" +:+ pad2 (d mod 60)).
Proof.
  intros Hd. unfold clock.
  assert (Hrange : (d * 1000 <= maxTime)%N) by (unfold maxTime, extendedYear in *; lia).
  by rewrite (proj2 (N.leb_le _ _) Hrange), (proj2 (N.ltb_lt _ _) Hd).
Qed.

(** The duration shown for a log that lasted less than the time from 1970
    to the year 10000 is its minutes and seconds: read back, it is the
    duration modulo one hour, so it is the duration itself below one hour,
    and two durations a whole number of hours apart look the same. *)
Theorem clock_modulo_hour durationSeconds :
  (durationSeconds < extendedYear)%N ->
  exists text,
    clock durationSeconds = Some text
    /\ readClock text = Some (durationSeconds mod 3600)%N
    /\ ((durationSeconds < 3600)%N -> readClock text = Some durationSeconds)
    /\ (forall hours,
          (durationSeconds + 3600 * hours < extendedYear)%N ->
          clock (durationSeconds + 3600 * hours) = Some text).
Proof.
  intros Hrange. rewrite (clock_before_extendedYear _ Hrange).
  eexists. split; [reflexivity|].
  assert (Hread : readClock (pad2 (durationSeconds / 60 mod 60) +:+ ":"
                             +:+ pad2 (durationSeconds mod 60))
                  = Some (durationSeconds mod 3600)%N).
  { rewrite readClock_pad2.
    - f_equal. change 3600%N with (60 * 60)%N. rewrite N.Div0.mod_mul_r. lia.
    - pose proof (N.mod_lt (durationSeconds / 60) 60). lia.
    - pose proof (N.mod_lt durationSeconds 60). lia. }
  split; [exact Hread|]. split.
  - intros Hlt. rewrite Hread. by rewrite N.mod_small.
  - intros hours Hh. rewrite (clock_before_extendedYear _ Hh).
    replace ((durationSeconds + 3600 * hours) mod 60)%N with (durationSeconds mod 60)%N.
    2: { replace (3600 * hours)%N with (hours * 60 * 60)%N by lia.
         by rewrite N.Div0.mod_add. }
    replace ((durationSeconds + 3600 * hours) / 60 mod 60)%N
      with (durationSeconds / 60 mod 60)%N; [done|].
    replace (3600 * hours)%N with (hours * 60 * 60)%N by lia.
    rewrite N.div_add by lia. by rewrite N.Div0.mod_add.
Qed.

End LogPage.

(** ** Token refresh and teardown *)

Section Teardown.

Variable randomUUID : nat -> string.
Variable outbound : Connection.

Local Abbreviation step := (step randomUUID outbound).

(** [scheduleTokenRefresh] sets a timer only for a positive lifetime; the
    delay is two minutes less than the lifetime, but never less than 30
    seconds, so that a token that lives less than 30 seconds is refreshed
    only after it has expired.  A timer that is pending is cancelled in
    every case. *)
Theorem scheduleTokenRefresh_delay expiresInSeconds (w : World) :
  let w' := scheduleTokenRefresh expiresInSeconds w in
  let cancelled :=
    match tokenRefreshTimerRef (st w) with
    | Some _ => ClearTimeout :: trace w
    | None => trace w
    end in
  match expiresInSeconds with
  | Some e =>
      if (0 <? e)%Z then
        tokenRefreshTimerRef (st w') = Some (refreshInMs e)
        /\ trace w' = SetTimeout (refreshInMs e) :: cancelled
        /\ (30000 <= refreshInMs e)%Z
        /\ ((150 <= e)%Z -> refreshInMs e = ((e - 120) * 1000)%Z)
        /\ ((e <= 150)%Z -> refreshInMs e = 30000%Z)
        /\ ((e < 30)%Z -> (e * 1000 < refreshInMs e)%Z)
      else
        tokenRefreshTimerRef (st w') = tokenRefreshTimerRef (st w) /\ trace w' = cancelled
  | None =>
      tokenRefreshTimerRef (st w') = tokenRefreshTimerRef (st w) /\ trace w' = cancelled
  end.
Proof.
  intros w' cancelled. subst w' cancelled. unfold scheduleTokenRefresh, refreshInMs.
  destruct expiresInSeconds as [e|].
  - destruct (Z.ltb_spec 0 e) as [Hpos|Hneg].
    + destruct (Z.leb_spec e 0) as [|_]; [lia|].
      destruct (tokenRefreshTimerRef (st w)); simpl; repeat split; lia.
    + destruct (Z.leb_spec e 0) as [_|]; [|lia].
      by destruct (tokenRefreshTimerRef (st w)) eqn:E; simpl; rewrite ?E.
  - by destruct (tokenRefreshTimerRef (st w)) eqn:E; simpl; rewrite ?E.
Qed.

Lemma clearDevice_cleared w :
  deviceRef (st w) = None -> tokenRefreshTimerRef (st w) = None ->
  activeConnectionRef (st w) = None -> incomingConnectionRef (st w) = None ->
  isClientReady (st w) = false ->
  connectionStatus (st w) = (conn_disconnected, "Twilio client disconnected") ->
  clearDevice w = w.
Proof.
  intros H1 H2 H3 H4 H5 H6. unfold clearDevice. rewrite H1. simpl. rewrite H2.
  destruct w as [u [] ]. simpl in *. by subst.
Qed.

(** [clearDevice] destroys the device it holds, after removing its
    listeners, and cancels the refresh timer that is pending, in this
    order and nothing else; it is safe without a device and can be
    repeated: afterwards there is no device, no tracked connection and no
    timer, the client is not ready and the status is [disconnected]; a
    second [clearDevice] changes nothing, and notifications of the device
    that was destroyed are ignored.  The call state, the flags and the
    tracked log stay as they were. *)
Theorem clearDevice_teardown (w : World) :
  let w' := clearDevice w in
  trace w' = (match tokenRefreshTimerRef (st w) with Some _ => [ClearTimeout] | None => [] end
              ++ match deviceRef (st w) with Some d => [DestroyDevice d] | None => [] end
              ++ trace w)%list
  /\ devices w' = match deviceRef (st w) with
                  | Some d => delete d (devices w)
                  | None => devices w
                  end
  /\ deviceRef (st w') = None
  /\ activeConnectionRef (st w') = None
  /\ incomingConnectionRef (st w') = None
  /\ tokenRefreshTimerRef (st w') = None
  /\ isClientReady (st w') = false
  /\ connectionStatus (st w') = (conn_disconnected, "Twilio client disconnected")
  /\ callView (st w') = callView (st w)
  /\ clearDevice w' = w'
  /\ (forall d now ev, deviceRef (st w) = Some d -> emitDevice randomUUID now d ev w' = w')
  /\ (deviceRef (st w) = None -> tokenRefreshTimerRef (st w) = None -> trace w' = trace w).
Proof.
  intros w'.
  assert (H1 : deviceRef (st w') = None).
  { unfold w', clearDevice. destruct (deviceRef (st w)); simpl;
      by destruct (tokenRefreshTimerRef (st w)). }
  assert (H2 : activeConnectionRef (st w') = None).
  { unfold w', clearDevice. destruct (deviceRef (st w)); simpl;
      by destruct (tokenRefreshTimerRef (st w)). }
  assert (H3 : incomingConnectionRef (st w') = None).
  { unfold w', clearDevice. destruct (deviceRef (st w)); simpl;
      by destruct (tokenRefreshTimerRef (st w)). }
  assert (H4 : tokenRefreshTimerRef (st w') = None).
  { unfold w', clearDevice. destruct (deviceRef (st w)); simpl;
      by destruct (tokenRefreshTimerRef (st w)) eqn:E. }
  assert (H5 : isClientReady (st w') = false).
  { unfold w', clearDevice. destruct (deviceRef (st w)); simpl;
      by destruct (tokenRefreshTimerRef (st w)). }
  assert (H6 : connectionStatus (st w') = (conn_disconnected, "Twilio client disconnected")).
  { unfold w', clearDevice. destruct (deviceRef (st w)); simpl;
      by destruct (tokenRefreshTimerRef (st w)). }
  split.
  { unfold w', clearDevice. destruct (deviceRef (st w)); simpl;
      by destruct (tokenRefreshTimerRef (st w)). }
  split.
  { unfold w', clearDevice. destruct (deviceRef (st w)); simpl;
      by destruct (tokenRefreshTimerRef (st w)). }
  split; [done|]. split; [done|]. split; [done|]. split; [done|].
  split; [done|]. split; [done|].
  split; [apply callView_clearDevice|].
  split; [by apply clearDevice_cleared|].
  split.
  - intros d now ev Hd. unfold emitDevice.
    assert (devices w' !! d = None) as ->; [|done].
    unfold w', clearDevice. rewrite Hd. simpl.
    destruct (tokenRefreshTimerRef (st w)); simpl; apply lookup_delete_eq.
  - intros Hd Ht. unfold w', clearDevice. rewrite Hd. simpl. by rewrite Ht.
Qed.

(** [initializeClient], [makeCall] and [acceptIncomingCall] on a device
    that is ready use it as it is: [initializeClient] resolves to it at
    once and changes nothing; none of the three requests a token,
    constructs, registers or destroys a device. *)
Theorem ready_device_is_reused now u d i (w : World) :
  user w = Some u ->
  deviceRef (st w) = Some d ->
  isClientReady (st w) = true ->
  (exists destination, i = InitializeClient \/ i = MakeCall destination \/ i = AcceptIncomingCall) ->
  let w' := step now i w in
  deviceRef (st w') = Some d
  /\ devices w' = devices w
  /\ nextDevice w' = nextDevice w
  /\ (trace w' = trace w
      \/ (exists payload, trace w' = CreateUserCallLog (uid u) payload :: trace w)
      \/ (exists c, trace w' = ConnAccept c :: trace w))
  /\ (i = InitializeClient ->
      result w' (nextTask w) = Some (Resolved (VDevice d))
      /\ st w' = st w /\ tasks w' = delete (nextTask w) (tasks w)).
Proof.
  intros Hu Hd Hr [destination Hi] w'. subst w'.
  destruct Hi as [-> | [-> | ->]]; unfold step, called.
  - unfold initializeClient. simpl. rewrite Hu, Hd, Hr. simpl.
    split; [done|]. split; [done|]. split; [done|]. split; [by left|].
    intros _. unfold result. simpl. by rewrite Nat.eqb_refl.
  - unfold makeCall. simpl. rewrite Hu.
    destruct (truthy (trim destination)); simpl.
    + unfold initializeClient. simpl. rewrite Hu, Hd, Hr. simpl.
      split; [done|]. split; [done|]. split; [done|]. split; [|done].
      right. left. by eexists.
    + split; [done|]. split; [done|]. split; [done|]. split; [by left|done].
  - unfold acceptIncomingCall. simpl.
    destruct (incomingConnectionRef (st w)) as [c|]; simpl.
    + unfold initializeClient. simpl. rewrite Hu, Hd, Hr. simpl.
      split; [done|]. split; [done|]. split; [done|]. split; [|done].
      right. right. by eexists.
    + split; [done|]. split; [done|]. split; [done|]. split; [by left|done].
Qed.

(** Without a signed-in user [initializeClient] and [makeCall] reject and
    leave the provider as it was; [makeCall] with a blank destination
    resolves to [false], records the reason in [lastError] and does nothing
    else: no token request, no device, no change of the call state. *)
Theorem calls_are_guarded now destination (w : World) :
  let t := nextTask w in
  (user w = None ->
     (let w' := step now InitializeClient w in
      result w' t = Some (Rejected "Twilio client requires an authenticated user")
      /\ st w' = st w /\ trace w' = trace w)
     /\ (let w' := step now (MakeCall destination) w in
         result w' t = Some (Rejected "You must be signed in to place calls")
         /\ st w' = st w /\ trace w' = trace w))
  /\ (user w <> None -> trim destination = "" ->
      let w' := step now (MakeCall destination) w in
      result w' t = Some (Resolved (VBool false))
      /\ st w' = setLastError (Some "Enter a number to call") (st w)
      /\ trace w' = trace w /\ devices w' = devices w).
Proof.
  intros t. split.
  - intros Hu. split; simpl; unfold called, initializeClient, makeCall; simpl;
      rewrite Hu; simpl; (split; [|done]); unfold result; simpl;
      by rewrite Nat.eqb_refl.
  - intros Hu Hblank. simpl. unfold called, makeCall. simpl.
    destruct (user w); [|done]. rewrite Hblank. simpl.
    unfold result. simpl. by rewrite Nat.eqb_refl.
Qed.

End Teardown.

(** ** Incoming calls *)

Section IncomingCalls.

Variable randomUUID : nat -> string.
Variable outbound : Connection.

Local Abbreviation step := (step randomUUID outbound).

Lemma incoming_world now d seen conn (w : World) :
  devices w !! d = Some seen ->
  step now (DeviceEvent d (dev_incoming conn)) w
  = w |> storeConn (nextConn w) conn
      |> upd (setIncomingConnectionRef (Some (nextConn w)))
      |> upd (setCallState incoming)
      |> upd (setIncomingNumber (callerOf (From conn)))
      |> upd (setActiveNumber None)
      |> upd (setIsMuted false)
      |> upd (setIsOnHold false)
      |> upd (setLastError None)
      |> upd (setCallNoteRef "")
      |> pushEvent randomUUID now
           ("Incoming call from " +:+ nullish (callerOf (From conn)) "unknown")
      |> attachOnce (nextConn w) OnIncomingCancel
      |> attachOnce (nextConn w) OnIncomingReject.
Proof. intros Hd. unfold step, emitDevice. by rewrite Hd. Qed.

(** Scenario B for every provider with a listening device: an incoming
    call makes the state [incoming] with the caller's number, normalised
    when it holds digits; [rejectIncomingCall] rejects the connection,
    returns to [idle] and forgets the caller; no log is created or
    finalized.  When the SDK's [reject()] throws, the call stays
    [incoming] and the operation resolves to [false]. *)
Theorem incoming_then_reject now1 now2 d seen conn reason e (w : World) :
  devices w !! d = Some seen ->
  let c := nextConn w in
  let w1 := step now1 (DeviceEvent d (dev_incoming conn)) w in
  let w2 := step now2 (RejectIncomingCall reason SdkOk) w1 in
  let w2' := step now2 (RejectIncomingCall reason (SdkThrows e)) w1 in
  (callState (st w1) = incoming
   /\ incomingConnectionRef (st w1) = Some c
   /\ incomingNumber (st w1) = callerOf (From conn)
   /\ isMuted (st w1) = false /\ isOnHold (st w1) = false
   /\ trace w1 = trace w)
  /\ (callState (st w2) = idle
      /\ incomingConnectionRef (st w2) = None
      /\ incomingNumber (st w2) = None
      /\ result w2 (nextTask w) = Some (Resolved (VBool true))
      /\ trace w2 = ConnReject c :: trace w
      /\ activeLogIdRef (st w2) = activeLogIdRef (st w))
  /\ (callState (st w2') = incoming
      /\ incomingConnectionRef (st w2') = Some c
      /\ result w2' (nextTask w) = Some (Resolved (VBool false))
      /\ lastError (st w2') = Some (nullish e "Failed to reject call")
      /\ trace w2' = trace w).
Proof.
  intros Hd c w1 w2 w2'.
  assert (E1 : w1 = _) by exact (incoming_world now1 d seen conn w Hd).
  split; [by rewrite E1|].
  split.
  - unfold w2, step, called, rejectIncomingCall. rewrite E1. simpl.
    unfold result. simpl. by rewrite Nat.eqb_refl.
  - unfold w2', step, called, rejectIncomingCall. rewrite E1. simpl.
    unfold result. simpl. by rewrite Nat.eqb_refl.
Qed.

(** With no incoming call [rejectIncomingCall] and [acceptIncomingCall]
    resolve to [false] and touch nothing. *)
Theorem no_incoming_call_no_op now reason sdk (w : World) :
  incomingConnectionRef (st w) = None ->
  let t := nextTask w in
  (let w' := step now (RejectIncomingCall reason sdk) w in
   result w' t = Some (Resolved (VBool false)) /\ st w' = st w /\ trace w' = trace w)
  /\ (let w' := step now AcceptIncomingCall w in
      result w' t = Some (Resolved (VBool false)) /\ st w' = st w /\ trace w' = trace w).
Proof.
  intros Hnone t. split; simpl; unfold called, rejectIncomingCall, acceptIncomingCall;
    simpl; rewrite Hnone; (split; [|done]); unfold result; simpl;
    by rewrite Nat.eqb_refl.
Qed.

(** When the remote party cancels an incoming call before it is answered,
    the provider returns to [idle] and forgets the caller; the listener has
    then been used up, so a second cancel notification changes nothing. *)
Theorem incoming_then_cancel now1 now2 now3 d seen conn (w : World) :
  devices w !! d = Some seen ->
  Forall (fun l => l.1 <> nextConn w) (listeners w) ->
  let c := nextConn w in
  let w1 := step now1 (DeviceEvent d (dev_incoming conn)) w in
  let w2 := step now2 (ConnEvent c ev_cancel) w1 in
  let w3 := step now3 (ConnEvent c ev_cancel) w2 in
  callState (st w2) = idle
  /\ incomingConnectionRef (st w2) = None
  /\ incomingNumber (st w2) = None
  /\ trace w2 = trace w
  /\ listeners w2 = (listeners w ++ [(c, OnIncomingReject)])%list
  /\ st w3 = st w2 /\ trace w3 = trace w2.
Proof.
  intros Hd Hfresh c w1 w2 w3.
  assert (E1 : w1 = _) by exact (incoming_world now1 d seen conn w Hd).
  assert (L1 : listeners w1
               = (listeners w ++ map (pair c) [OnIncomingCancel; OnIncomingReject])%list).
  { rewrite E1. unfold attachOnce. simpl. by rewrite <- app_assoc. }
  destruct (listeners_split c ev_cancel (listeners w)
              [OnIncomingCancel; OnIncomingReject] Hfresh) as [F2 G2].
  assert (E2 : w2 = runHandler randomUUID now2 c ev_cancel OnIncomingCancel
                      (setListeners (listeners w ++ map (pair c) [OnIncomingReject]) w1)).
  { unfold w2, step, emitConn. by rewrite L1, F2, G2. }
  assert (I1 : incomingConnectionRef (st w1) = Some c) by (by rewrite E1).
  assert (E2' : w2 = setListeners (listeners w ++ map (pair c) [OnIncomingReject]) w1
                     |> pushEvent randomUUID now2 "Incoming call cancelled by remote party"
                     |> upd (setIncomingConnectionRef None)
                     |> upd (setCallState idle)
                     |> upd (setIncomingNumber None)).
  { rewrite E2. unfold runHandler. simpl. rewrite I1. by rewrite decide_True. }
  destruct (listeners_split c ev_cancel (listeners w) [OnIncomingReject] Hfresh) as [F3 G3].
  assert (L2 : listeners w2 = (listeners w ++ map (pair c) [OnIncomingReject])%list).
  { by rewrite E2'. }
  assert (E3 : w3 = setListeners (listeners w ++ map (pair c) [OnIncomingReject]) w2).
  { unfold w3, step, emitConn. by rewrite L2, F3, G3. }
  split; [by rewrite E2'|]. split; [by rewrite E2'|]. split; [by rewrite E2'|].
  split; [by rewrite E2', E1|]. split; [exact L2|]. by rewrite E3.
Qed.

(** Answering: [acceptIncomingCall] on a ready device accepts the
    connection; once the SDK has accepted, the connection is the active one,
    the state is [active] with the caller as active number, and an inbound
    log with status [active] is requested, whose [from] is the caller's
    number, [undefined] for a caller without number, and whose id is
    tracked when it arrives.  When accepting fails the call stays [incoming], the error is
    recorded and the operation resolves to [false]. *)
Theorem incoming_then_accept now1 now2 now3 now4 d0 d seen conn u err (w : World) :
  user w = Some u ->
  deviceRef (st w) = Some d0 ->
  isClientReady (st w) = true ->
  devices w !! d = Some seen ->
  let c := nextConn w in
  let t := nextTask w in
  let w1 := step now1 (DeviceEvent d (dev_incoming conn)) w in
  let w2 := step now2 AcceptIncomingCall w1 in
  let w3 := step now3 (Settle t AcceptOk) w2 in
  let w4 := step now4 (Settle t CreateLogOk) w3 in
  let failed := step now3 (Settle t (Failed err)) w2 in
  trace w2 = ConnAccept c :: trace w
  /\ (callState (st w3) = active
      /\ activeConnectionRef (st w3) = Some c
      /\ incomingConnectionRef (st w3) = None
      /\ activeNumber (st w3) = callerOf (From conn)
      /\ incomingNumber (st w3) = None
      /\ trace w3 = CreateUserCallLog (uid u) (inboundLog (callerOf (From conn))) :: trace w2
      /\ inboundLog (callerOf (From conn)) !! "direction" = Some (FString "inbound")
      /\ inboundLog (callerOf (From conn)) !! "status" = Some (FString "active")
      /\ inboundLog (callerOf (From conn)) !! "from"
         = Some (match callerOf (From conn) with
                 | Some from => FString from
                 | None => FUndefined
                 end))
  /\ (result w4 t = Some (Resolved (VBool true))
      /\ activeLogIdRef (st w4) = Some (nextLogId w)
      /\ callState (st w4) = active)
  /\ (result failed t = Some (Resolved (VBool false))
      /\ callState (st failed) = incoming
      /\ incomingConnectionRef (st failed) = Some c
      /\ lastError (st failed) = Some err
      /\ trace failed = trace w2).
Proof.
  intros Hu Hd0 Hr Hd c t w1 w2 w3 w4 failed.
  assert (E1 : w1 = _) by exact (incoming_world now1 d seen conn w Hd).
  assert (E2 : w2 = w1 |> setNextTask (S t) |> emit (ConnAccept c) |> suspend t (AwaitAccept c)).
  { unfold w2, step, called, acceptIncomingCall.
    assert (incomingConnectionRef (st (setNextTask (S (nextTask w1)) w1)) = Some c) as ->
      by (by rewrite E1).
    unfold initializeClient.
    assert (user (setNextTask (S (nextTask w1)) w1) = Some u) as -> by (by rewrite E1).
    assert (deviceRef (st (setNextTask (S (nextTask w1)) w1)) = Some d0) as ->
      by (by rewrite E1).
    assert (isClientReady (st (setNextTask (S (nextTask w1)) w1)) = true) as ->
      by (by rewrite E1).
    assert (nextTask w1 = t) as -> by (by rewrite E1). done. }
  assert (T2 : tasks w2 !! t = Some (AwaitAccept c)).
  { rewrite E2. apply lookup_insert_eq. }
  assert (K2 : connection w2 c = conn).
  { unfold connection. rewrite E2, E1. simpl. by rewrite lookup_insert_eq. }
  assert (E3 : w3 = acceptIncomingCall_accepted randomUUID now3 t c w2).
  { unfold w3, step, resume. by rewrite T2. }
  assert (U2 : user w2 = Some u) by (by rewrite E2, E1).
  assert (E3' : w3 =
    w2 |> upd (setActiveConnectionRef (Some c))
       |> upd (setIncomingConnectionRef None)
       |> upd (setActiveNumber (callerOf (From conn)))
       |> upd (setIncomingNumber None)
       |> upd (setCallState active)
       |> upd (setIsMuted (nullish (sdkMuted conn) false))
       |> upd (setIsOnHold (nullish (sdkOnHold conn) false))
       |> pushEvent randomUUID now3
            ("Accepted incoming call from " +:+ nullish (callerOf (From conn)) "unknown")
       |> upd (setCallNoteRef "")
       |> emit (CreateUserCallLog (uid u) (inboundLog (callerOf (From conn))))
       |> suspend t AwaitInboundLog).
  { rewrite E3. unfold acceptIncomingCall_accepted. rewrite K2.
    cbn [user upd pushEvent setPushes]. by rewrite U2. }
  assert (T3 : tasks w3 !! t = Some AwaitInboundLog).
  { rewrite E3'. apply lookup_insert_eq. }
  split; [by rewrite E2, E1|].
  split.
  { rewrite E3'. do 6 (split; [done|]). unfold inboundLog.
    split; [by do 2 (rewrite lookup_insert_ne by done); rewrite lookup_insert_eq|].
    split; [by rewrite lookup_insert_eq|].
    rewrite lookup_insert_ne by done. by rewrite lookup_insert_eq. }
  split.
  { unfold w4, step, resume. rewrite T3.
    split; [apply result_settle|]. by rewrite E3', E2, E1. }
  unfold failed, step, resume. rewrite T2.
  split; [apply result_settle|].
  cbn [st upd pushEvent setPushes settle setTasks setResults trace callState
       incomingConnectionRef lastError setLastError setEvents].
  rewrite E2. cbn [st suspend setTasks emit setNextTask trace]. rewrite E1.
  repeat split; reflexivity.
Qed.

End IncomingCalls.

(** ** Mute, notes and the log of a call *)

Section MuteAndNotes.

Variable randomUUID : nat -> string.
Variable outbound : Connection.

Local Abbreviation step := (step randomUUID outbound).

(** [toggleMute] on a tracked connection asks the SDK for the opposite of
    what the SDK reports (of the flag, when the SDK reports nothing); when
    the SDK accepts, the flag is that value and agrees with what the SDK
    reports from then on; when the SDK throws, the flag is unchanged, the
    error is recorded and the operation resolves to [false].  With no
    connection nothing happens. *)
Theorem toggleMute_follows_sdk now conn e (w : World) :
  let t := nextTask w in
  (forall c,
      activeConnectionRef (st w) = Some c ->
      conns w !! c = Some conn ->
      let next := negb (nullish (sdkMuted conn) (isMuted (st w))) in
      (let w' := step now (ToggleMute SdkOk) w in
       result w' t = Some (Resolved (VBool true))
       /\ isMuted (st w') = next
       /\ trace w' = ConnMute c next :: trace w
       /\ nullish (sdkMuted (connection w' c)) (isMuted (st w')) = isMuted (st w')
       /\ isOnHold (st w') = isOnHold (st w) /\ callState (st w') = callState (st w))
      /\ (let w' := step now (ToggleMute (SdkThrows e)) w in
          result w' t = Some (Resolved (VBool false))
          /\ isMuted (st w') = isMuted (st w)
          /\ lastError (st w') = Some (nullish e "Failed to toggle mute")
          /\ conns w' = conns w /\ trace w' = trace w))
  /\ (activeConnectionRef (st w) = None ->
      forall sdk, let w' := step now (ToggleMute sdk) w in
      result w' t = Some (Resolved (VBool false))
      /\ st w' = st w /\ conns w' = conns w /\ trace w' = trace w).
Proof.
  intros t. split.
  - intros c Hc Hconn next.
    assert (Econn : connection (setNextTask (S (nextTask w)) w) c = conn).
    { unfold connection. simpl. by rewrite Hconn. }
    split.
    + unfold step, called, toggleMute. cbn [st setNextTask]. rewrite Hc, Econn.
      fold next. simpl.
      split; [unfold result; simpl; by rewrite Nat.eqb_refl|].
      split; [done|]. split; [done|]. split; [|done].
      unfold connection. simpl. rewrite lookup_alter_eq, Hconn. simpl.
      by destruct (sdkMuted conn).
    + unfold step, called, toggleMute. cbn [st setNextTask]. rewrite Hc. simpl.
      split; [unfold result; simpl; by rewrite Nat.eqb_refl|done].
  - intros Hc sdk. unfold step, called, toggleMute. cbn [st setNextTask]. rewrite Hc.
    split; [unfold result; simpl; by rewrite Nat.eqb_refl|done].
Qed.

(** The note typed for a call reaches the store trimmed: [finalizeActiveLog]
    hands a non-blank note over without its surrounding white space and a
    blank note not at all, [finalizeUserCallLog] then stores the former as
    it is and deletes the field for the latter; the note buffer is empty
    afterwards. *)
Theorem note_reaches_store now status extra note u logId (w : World) :
  user w = Some u ->
  activeLogIdRef (st w) = Some logId ->
  extra !! "note" = None ->
  let w' := finalizeActiveLog now status extra (setCallNote note w) in
  exists updates payload,
    trace w' = FinalizeUserCallLog (uid u) logId updates :: trace w
    /\ updates !! "note" = (if truthy (trim note) then Some (FString (trim note)) else None)
    /\ finalizeUserCallLog true (uid u) logId updates = inr (UpdateDoc (uid u) logId payload)
    /\ payload !! "note"
       = Some (if truthy (trim note) then FString (trim note) else FDeleteField)
    /\ callNoteRef (st w') = "".
Proof.
  intros Hu Hlog Hextra w'.
  pose proof (finalizeActiveLog_tracked now status extra u logId
                (setCallNote note w) Hu Hlog) as E.
  fold w' in E. simpl in E.
  set (updates := finalUpdates status (durationSeconds now (activeCallStartedAtRef (st w)))
                    (trim note) extra) in E.
  assert (Hnote : updates !! "note"
                  = if truthy (trim note) then Some (FString (trim note)) else None).
  { by apply finalUpdates_note. }
  exists updates. eexists. split; [by rewrite E|]. split; [exact Hnote|].
  split; [reflexivity|]. split; [|by rewrite E].
  rewrite lookup_insert_ne by done. rewrite lookup_insert_eq. f_equal.
  unfold note_of. rewrite Hnote. rewrite <- truthy_length.
  destruct (truthy (trim note)) eqn:Ht.
  - by rewrite trim_idempotent, Ht.
  - done.
Qed.

(** A call goes ahead when its log cannot be created: [makeCall] resolves
    to [true] and connects all the same, and no log id is assigned. *)
Theorem makeCall_survives_log_failure now t u d dest err (w : World) :
  tasks w !! t = Some (AwaitCreateLog u d dest) ->
  let w' := step now (Settle t (Failed err)) w in
  result w' t = Some (Resolved (VBool true))
  /\ trace w' = DeviceConnect d dest (nextConn w) :: trace w
  /\ activeConnectionRef (st w') = Some (nextConn w)
  /\ conns w' !! nextConn w = Some outbound
  /\ activeLogIdRef (st w') = activeLogIdRef (st w)
  /\ nextLogId w' = nextLogId w
  /\ callState (st w') = callState (st w).
Proof.
  intros Ht w'. unfold w', step, resume. rewrite Ht. unfold makeCall_connect.
  split; [apply result_settle|]. simpl. by rewrite lookup_insert_eq.
Qed.

Lemma listeners_runHandler now c ev h w :
  listeners (runHandler randomUUID now c ev h w) = listeners w.
Proof.
  destruct h; unfold runHandler, finalizeActiveLog; repeat case_match; done.
Qed.

Lemma listeners_fold now c ev (hs : list (nat * Handler)) w :
  listeners (fold_left (fun w (l : nat * Handler) => runHandler randomUUID now c ev l.2 w) hs w)
  = listeners w.
Proof.
  revert w. induction hs as [|h hs IH]; intros w; [done|].
  simpl. by rewrite IH, listeners_runHandler.
Qed.

Lemma filter_listens_twice c ev (ls : list (nat * Handler)) :
  List.filter (listens c ev) (List.filter (fun l => negb (listens c ev l)) ls) = []
  /\ List.filter (fun l => negb (listens c ev l))
       (List.filter (fun l => negb (listens c ev l)) ls)
     = List.filter (fun l => negb (listens c ev l)) ls.
Proof.
  induction ls as [|l ls [IH1 IH2]]; [done|]. cbn [List.filter].
  destruct (listens c ev l) eqn:E; cbn [negb List.filter]; rewrite ?E; cbn [negb];
    by rewrite ?IH1, ?IH2.
Qed.

Lemma setListeners_same w : setListeners (listeners w) w = w.
Proof. by destruct w. Qed.

(** [attachOnce]: a notification of a connection uses up the listeners it
    reaches, so the same notification delivered again changes nothing.  The
    connection is an event emitter with [off] or [removeListener], as the
    SDK's connections are. *)
Theorem notification_fires_once now1 now2 c ev (w : World) :
  let w1 := step now1 (ConnEvent c ev) w in
  step now2 (ConnEvent c ev) w1 = w1
  /\ Forall (fun l => listens c ev l = false) (listeners w1).
Proof.
  intros w1.
  assert (L1 : listeners w1 = List.filter (fun l => negb (listens c ev l)) (listeners w)).
  { unfold w1, step, emitConn. by rewrite listeners_fold. }
  destruct (filter_listens_twice c ev (listeners w)) as [F G].
  split.
  - unfold step at 1, emitConn. rewrite L1, F, G. simpl. rewrite <- L1.
    apply setListeners_same.
  - rewrite L1. apply Forall_forall. intros l Hl.
    apply list_elem_of_In, filter_In in Hl as [_ Hl]. by destruct (listens c ev l).
Qed.

End MuteAndNotes.

(** ** The document of a call in the store *)

Section LogDocument.

Import UserCallLogs.

(** Neither function of the service writes anything when Firebase is not
    configured; otherwise [createUserCallLog] lets the caller's fields win
    over its defaults, which fill in what the caller left out. *)
Theorem createUserCallLog_defaults userId logId payload :
  createUserCallLog false userId payload = inl not_configured
  /\ finalizeUserCallLog false userId logId payload = inl not_configured
  /\ exists fields,
       createUserCallLog true userId payload = inr (AddDoc userId fields)
       /\ (forall k v, payload !! k = Some v -> fields !! k = Some v)
       /\ fields !! "direction" = Some (default (FString "outbound") (payload !! "direction"))
       /\ fields !! "status" = Some (default (FString "connecting") (payload !! "status"))
       /\ fields !! "durationSeconds" = Some (default (FNumber 0) (payload !! "durationSeconds"))
       /\ fields !! "startedAt" = Some (default FServerTimestamp (payload !! "startedAt"))
       /\ fields !! "createdAt" = Some (default FServerTimestamp (payload !! "createdAt"))
       /\ (forall k, k ∉ ["direction"; "status"; "durationSeconds"; "startedAt"; "createdAt"] ->
             fields !! k = payload !! k).
Proof.
  split; [done|]. split; [done|]. eexists. split; [reflexivity|].
  split; [intros k v Hk; by apply lookup_union_Some_l|].
  assert (Hdef : forall k d,
            (<["createdAt" := FServerTimestamp]>
             (<["startedAt" := FServerTimestamp]>
             (<["durationSeconds" := FNumber 0]>
             (<["status" := FString "connecting"]>
             (<["direction" := FString "outbound"]> (∅ : gmap string FieldValue)))))) !! k = Some d ->
            (payload ∪ (<["createdAt" := FServerTimestamp]>
             (<["startedAt" := FServerTimestamp]>
             (<["durationSeconds" := FNumber 0]>
             (<["status" := FString "connecting"]>
             (<["direction" := FString "outbound"]> ∅)))))) !! k
            = Some (default d (payload !! k))).
  { intros k d Hk. rewrite lookup_union. rewrite Hk. by destruct (payload !! k). }
  split; [by apply Hdef|]. split; [by apply Hdef|]. split; [by apply Hdef|].
  split; [by apply Hdef|]. split; [by apply Hdef|].
  intros k Hk. rewrite lookup_union.
  assert (Hnone : (<["createdAt" := FServerTimestamp]>
             (<["startedAt" := FServerTimestamp]>
             (<["durationSeconds" := FNumber 0]>
             (<["status" := FString "connecting"]>
             (<["direction" := FString "outbound"]> (∅ : gmap string FieldValue)))))) !! k = None).
  { rewrite !lookup_insert_ne; [done|..]; intros <-; apply Hk; set_solver. }
  rewrite Hnone. by destruct (payload !! k).
Qed.

(** The life of the document of an outbound call: created with status
    [connecting], duration 0, the destination and the server's time;
    finalized, it carries the final status, the duration, the reason of a
    failure and the time it ended, the note only when it is not blank, and
    it keeps the destination and the time it started. *)
Theorem outbound_log_document created ended userId logId dest status d note reason :
  let doc := createdDoc created userId (outboundLog dest) in
  let final := finalizedDoc ended userId logId
                 (finalUpdates status d note (extraOf reason)) doc in
  (doc !! "direction" = Some (FString "outbound")
   /\ doc !! "to" = Some (FString dest)
   /\ doc !! "status" = Some (FString "connecting")
   /\ doc !! "durationSeconds" = Some (FNumber 0)
   /\ doc !! "startedAt" = Some (FTimestamp created)
   /\ doc !! "endedAt" = None)
  /\ (final !! "direction" = Some (FString "outbound")
      /\ final !! "to" = Some (FString dest)
      /\ final !! "status" = Some (FString (status_string status))
      /\ final !! "durationSeconds" = Some (FNumber d)
      /\ final !! "startedAt" = Some (FTimestamp created)
      /\ final !! "endedAt" = Some (FTimestamp ended)
      /\ final !! "statusReason" = FString <$> reason
      /\ final !! "note" = (if truthy (trim note) then Some (FString (trim note)) else None)).
Proof.
  intros doc final. split; [by vm_compute|].
  assert (Hnote : note_of (finalUpdates status d note (extraOf reason)) = trim note).
  { unfold note_of. rewrite finalUpdates_note by (by destruct reason).
    destruct note; done. }
  assert (H1 : finalUpdates status d note (extraOf reason) !! "direction" = None).
  { unfold finalUpdates. destruct reason, (truthy note); by vm_compute. }
  assert (H2 : finalUpdates status d note (extraOf reason) !! "to" = None).
  { unfold finalUpdates. destruct reason, (truthy note); by vm_compute. }
  assert (H3 : finalUpdates status d note (extraOf reason) !! "startedAt" = None).
  { unfold finalUpdates. destruct reason, (truthy note); by vm_compute. }
  assert (H4 : finalUpdates status d note (extraOf reason) !! "statusReason"
               = FString <$> reason).
  { unfold finalUpdates. destruct reason, (truthy note); by vm_compute. }
  subst final. unfold finalizedDoc, finalizeUserCallLog. cbn [negb].
  rewrite Hnote, <- truthy_length. unfold applyUpdate.
  repeat split; rewrite lookup_merge;
    first [ rewrite lookup_insert_eq
          | rewrite lookup_insert_ne by done;
            first [ rewrite lookup_insert_eq | rewrite lookup_insert_ne by done ] ].
  - rewrite H1. by vm_compute.
  - rewrite H2. by vm_compute.
  - rewrite finalUpdates_status by (by destruct reason). by destruct status.
  - by rewrite finalUpdates_duration by (by destruct reason).
  - rewrite H3. by vm_compute.
  - done.
  - rewrite H4. by destruct reason.
  - by destruct (truthy (trim note)).
Qed.

End LogDocument.

(** ** Operations and the promises they await *)

Section Awaits.

Variable randomUUID : nat -> string.
Variable outbound : Connection.

Local Abbreviation step := (step randomUUID outbound).

(** No operation hangs on a promise that fails: when the promise an
    operation awaits is rejected, the operation ends at once.  A failed
    token request or [register()] rejects it with the same error and
    leaves the provider as it was; a failed [accept()] resolves it to
    [false] with the error recorded; a call log that cannot be created
    fails neither [makeCall], which dials all the same, nor
    [acceptIncomingCall]. *)
Theorem awaited_failure_ends_operation now t k err (w : World) :
  tasks w !! t = Some k ->
  let w' := step now (Settle t (Failed err)) w in
  tasks w' !! t = None
  /\ result w' t = Some (match k with
                         | AwaitToken _ _ _ | AwaitRegister _ _ => Rejected err
                         | AwaitAccept _ => Resolved (VBool false)
                         | AwaitCreateLog _ _ _ | AwaitInboundLog => Resolved (VBool true)
                         end)
  /\ match k with
     | AwaitToken _ _ _ | AwaitRegister _ _ | AwaitInboundLog =>
         st w' = st w /\ trace w' = trace w
     | AwaitAccept _ =>
         lastError (st w') = Some err
         /\ callState (st w') = callState (st w)
         /\ activeConnectionRef (st w') = activeConnectionRef (st w)
         /\ incomingConnectionRef (st w') = incomingConnectionRef (st w)
         /\ trace w' = trace w
     | AwaitCreateLog _ d dest =>
         trace w' = DeviceConnect d dest (nextConn w) :: trace w
         /\ activeLogIdRef (st w') = activeLogIdRef (st w)
     end.
Proof.
  intros Ht w'. unfold w', step, resume. rewrite Ht.
  destruct k; unfold initialised, makeCall_connect;
    (split; [apply lookup_delete_eq|]); (split; [apply result_settle|]); done.
Qed.

End Awaits.

(** ** The properties at work *)

Section FurtherWitnesses.

Import Scenario.

(** A caller whose number the SDK reports with punctuation. *)
Local Abbreviation ringing_in := (mkConn (Some "(202) 555-0199") None (Some false) None false).


Lemma token_minted_for_requested_identity_witness :
  forall_chars identity_char "agent" = true
  /\ truthy "agent" = true
  /\ VoiceServer.tokenIdentity
       (Some (sanitizeIdentity (Some " alice smith@example.com") "agent")) "web_dialer_user"
     = sanitizeIdentity (Some " alice smith@example.com") "agent".
Proof.
  assert (Hfb : forall_chars identity_char "agent" = true) by (vm_compute; reflexivity).
  assert (Hne : truthy "agent" = true) by (vm_compute; reflexivity).
  split; [exact Hfb|]. split; [exact Hne|].
  exact (token_minted_for_requested_identity (Some " alice smith@example.com") "agent"
           "web_dialer_user" Hfb Hne).
Defined.

Lemma ready_device_is_reused_witness :
  let w := registered plain in
  let w' := step uuid plain 5000 InitializeClient w in
  user w = Some alice
  /\ deviceRef (st w) = Some 0
  /\ isClientReady (st w) = true
  /\ deviceRef (st w') = Some 0
  /\ devices w' = devices w
  /\ result w' (nextTask w) = Some (Resolved (VDevice 0))
  /\ st w' = st w.
Proof.
  intros w w'.
  assert (Hu : user w = Some alice) by (vm_compute; reflexivity).
  assert (Hd : deviceRef (st w) = Some 0) by (vm_compute; reflexivity).
  assert (Hr : isClientReady (st w) = true) by (vm_compute; reflexivity).
  destruct (ready_device_is_reused uuid plain 5000 alice 0 InitializeClient w Hu Hd Hr
              (ex_intro _ "" (or_introl eq_refl)))
    as (Hdev & Hdevs & _ & _ & Hinit).
  destruct (Hinit eq_refl) as (Hres & Hst & _).
  split; [exact Hu|]. split; [exact Hd|]. split; [exact Hr|]. split; [exact Hdev|].
  split; [exact Hdevs|]. split; [exact Hres|exact Hst].
Defined.

Lemma incoming_then_reject_witness :
  let w := registered plain in
  let w1 := step uuid plain 6000 (DeviceEvent 0 (dev_incoming ringing_in)) w in
  let w2 := step uuid plain 6100 (RejectIncomingCall None SdkOk) w1 in
  devices w !! 0 = Some None
  /\ callState (st w1) = incoming
  /\ incomingNumber (st w1) = Some "+2025550199"
  /\ callState (st w2) = idle
  /\ trace w2 = ConnReject (nextConn w) :: trace w.
Proof.
  intros w w1 w2.
  assert (Hd : devices w !! 0 = Some None) by (vm_compute; reflexivity).
  destruct (incoming_then_reject uuid plain 6000 6100 0 None ringing_in None None w Hd)
    as ((Hin & _ & Hnum & _) & (Hidle & _ & _ & _ & Htrace & _) & _).
  split; [exact Hd|]. split; [exact Hin|]. split; [exact Hnum|].
  split; [exact Hidle|exact Htrace].
Defined.

Lemma no_incoming_call_no_op_witness :
  let w := registered plain in
  let w' := step uuid plain 6000 AcceptIncomingCall w in
  incomingConnectionRef (st w) = None
  /\ result w' (nextTask w) = Some (Resolved (VBool false))
  /\ st w' = st w
  /\ trace w' = trace w.
Proof.
  intros w w'.
  assert (Hnone : incomingConnectionRef (st w) = None) by (vm_compute; reflexivity).
  destruct (no_incoming_call_no_op uuid plain 6000 None SdkOk w Hnone) as (_ & Hacc).
  split; [exact Hnone|exact Hacc].
Defined.

Lemma incoming_then_cancel_witness :
  let w := registered plain in
  let w1 := step uuid plain 6000 (DeviceEvent 0 (dev_incoming ringing_in)) w in
  let w2 := step uuid plain 6100 (ConnEvent (nextConn w) ev_cancel) w1 in
  let w3 := step uuid plain 6200 (ConnEvent (nextConn w) ev_cancel) w2 in
  devices w !! 0 = Some None
  /\ Forall (fun l => l.1 <> nextConn w) (listeners w)
  /\ callState (st w2) = idle
  /\ incomingNumber (st w2) = None
  /\ st w3 = st w2.
Proof.
  intros w w1 w2 w3.
  assert (Hd : devices w !! 0 = Some None) by (vm_compute; reflexivity).
  assert (Hf : Forall (fun l => l.1 <> nextConn w) (listeners w)).
  { assert (listeners w = []) as -> by (vm_compute; reflexivity). constructor. }
  destruct (incoming_then_cancel uuid plain 6000 6100 6200 0 None ringing_in w Hd Hf)
    as (Hidle & _ & Hnum & _ & _ & Hsame & _).
  split; [exact Hd|]. split; [exact Hf|]. split; [exact Hidle|].
  split; [exact Hnum|exact Hsame].
Defined.

Lemma incoming_then_accept_witness :
  let w := registered plain in
  let w1 := step uuid plain 6000 (DeviceEvent 0 (dev_incoming ringing_in)) w in
  let w2 := step uuid plain 6100 AcceptIncomingCall w1 in
  let w3 := step uuid plain 6200 (Settle (nextTask w) AcceptOk) w2 in
  let w4 := step uuid plain 6300 (Settle (nextTask w) CreateLogOk) w3 in
  user w = Some alice
  /\ deviceRef (st w) = Some 0
  /\ isClientReady (st w) = true
  /\ devices w !! 0 = Some None
  /\ callState (st w3) = active
  /\ activeNumber (st w3) = Some "+2025550199"
  /\ result w4 (nextTask w) = Some (Resolved (VBool true))
  /\ activeLogIdRef (st w4) = Some (nextLogId w)
  /\ inboundLog (callerOf None) !! "from" = Some FUndefined.
Proof.
  intros w w1 w2 w3 w4.
  assert (Hu : user w = Some alice) by (vm_compute; reflexivity).
  assert (Hd0 : deviceRef (st w) = Some 0) by (vm_compute; reflexivity).
  assert (Hr : isClientReady (st w) = true) by (vm_compute; reflexivity).
  assert (Hd : devices w !! 0 = Some None) by (vm_compute; reflexivity).
  destruct (incoming_then_accept uuid plain 6000 6100 6200 6300 0 0 None ringing_in
              alice "busy" w Hu Hd0 Hr Hd)
    as (_ & (Hactive & _ & _ & Hnum & _) & (Hres & Hlog & _) & _).
  destruct (incoming_then_accept uuid plain 6000 6100 6200 6300 0 0 None
              (mkConn None None None None false) alice "busy" w Hu Hd0 Hr Hd)
    as (_ & (_ & _ & _ & _ & _ & _ & _ & _ & Hfrom) & _).
  split; [exact Hu|]. split; [exact Hd0|]. split; [exact Hr|]. split; [exact Hd|].
  split; [exact Hactive|]. split; [exact Hnum|]. split; [exact Hres|].
  split; [exact Hlog|exact Hfrom].
Defined.

Lemma note_reaches_store_witness :
  let w := connected plain in
  let w' := finalizeActiveLog 7300 LogCompleted ∅ (setCallNote "  call back " w) in
  user w = Some alice
  /\ activeLogIdRef (st w) = Some 0
  /\ (∅ : gmap string FieldValue) !! "note" = None
  /\ truthy (trim "  call back ") = true
  /\ exists updates payload : gmap string FieldValue,
       trace w' = FinalizeUserCallLog "uid-alice" 0 updates :: trace w
       /\ updates !! "note" = Some (FString (trim "  call back "))
       /\ payload !! "note" = Some (FString (trim "  call back "))
       /\ callNoteRef (st w') = "".
Proof.
  intros w w'.
  assert (Hu : user w = Some alice) by (vm_compute; reflexivity).
  assert (Hlog : activeLogIdRef (st w) = Some 0) by (vm_compute; reflexivity).
  assert (Hextra : (∅ : gmap string FieldValue) !! "note" = None) by (vm_compute; reflexivity).
  assert (Ht : truthy (trim "  call back ") = true) by (vm_compute; reflexivity).
  destruct (note_reaches_store 7300 LogCompleted ∅ "  call back " alice 0 w Hu Hlog Hextra)
    as (updates & payload & Htrace & Hnote & _ & Hstored & Hbuf).
  rewrite Ht in Hnote, Hstored.
  split; [exact Hu|]. split; [exact Hlog|]. split; [exact Hextra|]. split; [exact Ht|].
  exists updates, payload.
  split; [exact Htrace|]. split; [exact Hnote|]. split; [exact Hstored|exact Hbuf].
Defined.

Lemma makeCall_survives_log_failure_witness :
  let w := step uuid plain 2000 (MakeCall "+12025550123") (registered plain) in
  let w' := step uuid plain 2100 (Settle 1 (Failed "permission-denied")) w in
  tasks w !! 1 = Some (AwaitCreateLog alice 0 "+12025550123")
  /\ result w' 1 = Some (Resolved (VBool true))
  /\ trace w' = DeviceConnect 0 "+12025550123" (nextConn w) :: trace w
  /\ activeLogIdRef (st w') = activeLogIdRef (st w).
Proof.
  intros w w'.
  assert (Ht : tasks w !! 1 = Some (AwaitCreateLog alice 0 "+12025550123"))
    by (vm_compute; reflexivity).
  destruct (makeCall_survives_log_failure uuid plain 2100 1 alice 0 "+12025550123"
              "permission-denied" w Ht)
    as (Hres & Htrace & _ & _ & Hlog & _).
  split; [exact Ht|]. split; [exact Hres|]. split; [exact Htrace|exact Hlog].
Defined.

Lemma awaited_failure_ends_operation_witness :
  let w := step uuid plain 1000 InitializeClient mounted in
  let w' := step uuid plain 1100 (Settle 0 (Failed "offline")) w in
  tasks w !! 0 = Some (AwaitToken "alice@example.com" None ByUI)
  /\ tasks w' !! 0 = None
  /\ result w' 0 = Some (Rejected "offline")
  /\ st w' = st w.
Proof.
  intros w w'.
  assert (Ht : tasks w !! 0 = Some (AwaitToken "alice@example.com" None ByUI))
    by (vm_compute; reflexivity).
  destruct (awaited_failure_ends_operation uuid plain 1100 0 _ "offline" w Ht)
    as (Hgone & Hres & Hst & _).
  split; [exact Ht|]. split; [exact Hgone|]. split; [exact Hres|exact Hst].
Defined.

Lemma calls_are_guarded_witness :
  let w := initialWorld None in
  let w' := step uuid plain 1000 (MakeCall "+12025550123") w in
  let blank := step uuid plain 1000 (MakeCall "   ") mounted in
  user w = None
  /\ result w' 0 = Some (Rejected "You must be signed in to place calls")
  /\ trace w' = trace w
  /\ result blank 0 = Some (Resolved (VBool false))
  /\ lastError (st blank) = Some "Enter a number to call".
Proof.
  intros w w' blank.
  assert (Hu : user w = None) by reflexivity.
  destruct (calls_are_guarded uuid plain 1000 "+12025550123" w) as (Hout & _).
  destruct (Hout Hu) as (_ & Hres & _ & Htrace).
  destruct (calls_are_guarded uuid plain 1000 "   " mounted) as (_ & Hblank).
  assert (Hin : user mounted <> None) by discriminate.
  assert (Hb : trim "   " = "") by (vm_compute; reflexivity).
  destruct (Hblank Hin Hb) as (Hres' & Hst & _).
  split; [exact Hu|]. split; [exact Hres|]. split; [exact Htrace|].
  split; [exact Hres'|]. fold blank in Hst. rewrite Hst. reflexivity.
Defined.

Lemma toggleMute_follows_sdk_witness :
  let w := connected plain in
  let w' := step uuid plain 4000 (ToggleMute SdkOk) w in
  activeConnectionRef (st w) = Some 0
  /\ conns w !! 0 = Some plain
  /\ isMuted (st w') = true
  /\ trace w' = ConnMute 0 true :: trace w.
Proof.
  intros w w'.
  assert (Hc : activeConnectionRef (st w) = Some 0) by (vm_compute; reflexivity).
  assert (Hconn : conns w !! 0 = Some plain) by (vm_compute; reflexivity).
  destruct (toggleMute_follows_sdk uuid plain 4000 plain None w) as (Hon & _).
  destruct (Hon 0 Hc Hconn) as ((_ & Hflag & Htrace & _) & _).
  split; [exact Hc|]. split; [exact Hconn|]. split; [exact Hflag|exact Htrace].
Defined.

Lemma clearDevice_teardown_witness :
  let w := registered plain in
  let w' := clearDevice w in
  deviceRef (st w) = Some 0
  /\ tokenRefreshTimerRef (st w) = Some 3480000%Z
  /\ trace w' = ClearTimeout :: DestroyDevice 0 :: trace w
  /\ deviceRef (st w') = None
  /\ isClientReady (st w') = false
  /\ clearDevice w' = w'
  /\ emitDevice uuid 5000 0 dev_ready w' = w'.
Proof.
  intros w w'.
  assert (Hd : deviceRef (st w) = Some 0) by (vm_compute; reflexivity).
  assert (Ht : tokenRefreshTimerRef (st w) = Some 3480000%Z) by (vm_compute; reflexivity).
  destruct (clearDevice_teardown uuid w)
    as (Htrace & _ & Hnone & _ & _ & _ & Hready & _ & _ & Hagain & Hdeaf & _).
  rewrite Hd, Ht in Htrace.
  split; [exact Hd|]. split; [exact Ht|]. split; [exact Htrace|].
  split; [exact Hnone|]. split; [exact Hready|].
  split; [exact Hagain|]. exact (Hdeaf 0 5000%Z dev_ready Hd).
Defined.

Lemma clock_modulo_hour_witness :
  (3725 < CallLogsPage.extendedYear)%N
  /\ CallLogsPage.clock 3725 = Some "02:05"
  /\ CallLogsPage.readClock "02:05" = Some 125%N
  /\ CallLogsPage.clock 125 = Some "02:05".
Proof.
  assert (Hrange : (3725 < CallLogsPage.extendedYear)%N) by (vm_compute; reflexivity).
  assert (Hshort : (125 < CallLogsPage.extendedYear)%N) by (vm_compute; reflexivity).
  destruct (clock_modulo_hour 125 Hshort) as (text & Hclock & Hread & _ & Hlong).
  assert (Etext : text = "02:05").
  { vm_compute in Hclock. injection Hclock as <-. reflexivity. }
  split; [exact Hrange|]. rewrite Etext in Hread, Hlong.
  split; [exact (Hlong 1%N Hrange)|]. split; [exact Hread|].
  rewrite Hclock, Etext. reflexivity.
Defined.

Lemma voiceTarget_routing_witness :
  trim " Client:bob " = "Client:" +:+ "bob"
  /\ VoiceServer.prefix_ci "client:" "Client:" = true
  /\ VoiceServer.voiceTarget (Some " Client:bob ") "agent" = VoiceServer.DialClient "bob"
  /\ VoiceServer.voiceTarget (Some "support") "agent" = VoiceServer.DialClient "support".
Proof.
  assert (Et : trim " Client:bob " = "Client:" +:+ "bob") by (vm_compute; reflexivity).
  assert (Hp : VoiceServer.prefix_ci "client:" "Client:" = true) by (vm_compute; reflexivity).
  split; [exact Et|]. split; [exact Hp|]. split.
  - pose proof (voiceTarget_routing (Some " Client:bob ") "agent") as H.
    destruct (VoiceServer.voiceTarget (Some " Client:bob ") "agent") as [n|identity] eqn:E;
      [vm_compute in E; discriminate|].
    destruct H as (_ & (_ & Hnamed & _) & _).
    by rewrite (Hnamed "Client:" "bob" Et eq_refl Hp).
  - pose proof (voiceTarget_routing (Some "support") "agent") as H.
    destruct (VoiceServer.voiceTarget (Some "support") "agent") as [n|identity] eqn:E;
      [vm_compute in E; discriminate|].
    destruct H as (_ & (_ & _ & Hplain) & _).
    rewrite Hplain; [vm_compute; reflexivity|vm_compute; discriminate|vm_compute; reflexivity].
Defined.

Lemma normalisePhoneNumber_shape_witness :
  normalisePhoneNumber (Some "(202) 555-0123") = Some "+2025550123"
  /\ startsWith "+"%char "+2025550123" = true
  /\ normalisePhoneNumber (Some "+2025550123") = Some "+2025550123"
  /\ normalisePhoneNumber (Some "n/a") = None.
Proof.
  assert (E : normalisePhoneNumber (Some "(202) 555-0123") = Some "+2025550123")
    by (vm_compute; reflexivity).
  destruct (normalisePhoneNumber_shape (Some "(202) 555-0123")) as (Hshape & _).
  destruct (Hshape "+2025550123" E) as (Hplus & _ & Hfix).
  destruct (normalisePhoneNumber_shape (Some "n/a")) as (_ & Hnone).
  split; [exact E|]. split; [exact Hplus|]. split; [exact Hfix|].
  apply Hnone. vm_compute. reflexivity.
Defined.

End FurtherWitnesses.
